(** * Tempesta FW: generic connection management (tempesta_fw/connection.c)

    A shallow embedding of the connection lifecycle layer: the protocol hook
    registry, the downcalls [tfw_connection_new] and [tfw_connection_close],
    and the synchronous-socket upcalls.  Kernel memory is an explicit store
    of sockets, connection/protocol records, messages and peers; a C pointer
    is an [option N] ([None] is NULL).  Every function runs in a small
    state-and-fault monad: [Bug] is a fired [BUG_ON], [Oops] an access
    through a null, dangling or out-of-bounds pointer. *)

From stdpp Require Import gmap strings list.
From Stdlib Require Import ZArith Lia.

Open Scope Z_scope.

(** ** Data model *)

(** Function pointers stored in [sk_destruct] are named by their symbol. *)
Abbreviation fnptr := string.

(** [SsProto] (sync_socket.h): the head of every connection record; only
    its [type] tag is read by connection.c. *)
Record SsProto := { type : Z }.

(** [TfwAddr]: a socket address; [memset(&addr, 0, sizeof(addr))] yields
    [TfwAddr_zero]. *)
Record TfwAddr := { family : Z; port : Z; in_addr : Z }.

Definition TfwAddr_zero : TfwAddr := {| family := 0; port := 0; in_addr := 0 |}.

(** [TfwConnection] (connection.h).  The intrusive node [c->list] is
    represented by the presence of the connection's address in its peer's
    [conn_list]; [INIT_LIST_HEAD] leaves it on no list.  The field
    [sk_destruct] of the C struct is [conn_sk_destruct] here, since
    [struct sock] has a field of the same name. *)
Record TfwConnection := {
  proto : SsProto;
  msg_queue : list N;
  msg : option N;
  peer : option N;
  sock : option N;
  conn_sk_destruct : option fnptr
}.

(** The part of [struct sock] that the connection layer touches, and the
    remote address of the endpoint. *)
Record Sock := {
  sk_user_data : option N;
  sk_destruct : option fnptr;
  sk_flags : Z;
  sk_daddr : TfwAddr
}.

(** [TfwMsg]: the list of segments (addresses of [struct sk_buff]). *)
Record TfwMsg := { skb_list : list N }.

(** [TfwPeer]: the connections threaded on the peer's list. *)
Record TfwPeer := { conn_list : list N }.

(** The macro [TFW_CONN_TYPE(c)], that is [c->proto.type]. *)
Definition TFW_CONN_TYPE (C : TfwConnection) : Z := type (proto C).

(** What [sk_user_data] may point to: a bare [SsProto] left by a protocol
    pre-binding, or a [TfwConnection], whose first member is an [SsProto]. *)
Inductive ProtoObj :=
| ObjProto (p : SsProto)
| ObjConn (c : TfwConnection).

Record Mem := {
  socks : gmap N Sock;
  objs : gmap N ProtoObj;
  msgs : gmap N TfwMsg;
  peers : gmap N TfwPeer
}.

(** [TfwConnHooks]: the callbacks of one protocol.  A callback is handed the
    connection pointer and may rewrite memory. *)
Record TfwConnHooks := {
  conn_init : N -> Mem -> Mem;
  conn_destruct : N -> Mem -> Mem;
  conn_msg_alloc : N -> Mem -> option N * Mem
}.

(** Calls that leave the connection layer, in the order they are made. *)
Inductive Event :=
| EvConnInit (c : N)
| EvConnDestruct (c : N)
| EvConnMsgAlloc (c : N)
| EvCreateClient (c : N) (a : TfwAddr)
| EvSsClose (sk : N).

(** The state of the module: memory, the slab cache [conn_cache] (the
    outcomes of its next allocations: an address or a failure), the static
    table [conn_hooks] and the log of outgoing calls. *)
Record World := {
  mem : Mem;
  conn_cache : list (option N);
  conn_hooks : list (option TfwConnHooks);
  trace : list Event
}.

(** Verdicts of the classifier (classifier.h). *)
Inductive verdict := TFW_PASS | TFW_POSTPONE | TFW_BLOCK.

Definition verdict_is_block (v : verdict) : bool :=
  match v with TFW_BLOCK => true | _ => false end.

(** Declarations that connection.c takes from headers and collaborators
    outside this file: the tag layout of connection.h and gfsm.h, the
    classifier and the client registry. *)
Class Externs := {
  Conn_Clnt : Z;
  Conn_Srv : Z;
  TFW_CONN_TYPE2IDX : Z -> Z;
  TFW_GFSM_FSM_N : Z;
  tfw_classify_conn_estab : Mem -> N -> verdict;
  tfw_classify_conn_close : Mem -> N -> verdict;
  tfw_create_client : N -> TfwAddr -> Mem -> option N * Mem
}.

Definition EPERM : Z := 1.
Definition ENOMEM : Z := 12.
Definition EINVAL : Z := 22.

(** Bit number of [SOCK_DBG] in [enum sock_flags]. *)
Definition SOCK_DBG : Z := 10.

Definition tfw_client_put : fnptr := "tfw_client_put"%string.

(** Conversion of an [int] to [unsigned]. *)
Definition to_unsigned (z : Z) : Z := z mod 2 ^ 32.

(** ** The state-and-fault monad *)

Inductive outcome (A : Type) :=
| Ret (a : A) (w : World)
| Bug
| Oops.

Arguments Ret {A} a w.
Arguments Bug {A}.
Arguments Oops {A}.

Definition M (A : Type) : Type := World -> outcome A.

#[global] Instance M_ret : MRet M := fun A (a : A) w => Ret a w.

#[global] Instance M_bind : MBind M := fun A B (k : A -> M B) (m : M A) w =>
  match m w with
  | Ret a w' => k a w'
  | Bug => Bug
  | Oops => Oops
  end.

Definition bug {A} : M A := fun _ => Bug.
Definition oops {A} : M A := fun _ => Oops.

(** ** Memory accessors *)

Definition set_socks (f : gmap N Sock -> gmap N Sock) (m : Mem) : Mem :=
  {| socks := f (socks m); objs := objs m; msgs := msgs m; peers := peers m |}.

Definition set_objs (f : gmap N ProtoObj -> gmap N ProtoObj) (m : Mem) : Mem :=
  {| socks := socks m; objs := f (objs m); msgs := msgs m; peers := peers m |}.

Definition set_msgs (f : gmap N TfwMsg -> gmap N TfwMsg) (m : Mem) : Mem :=
  {| socks := socks m; objs := objs m; msgs := f (msgs m); peers := peers m |}.

Definition set_peers (f : gmap N TfwPeer -> gmap N TfwPeer) (m : Mem) : Mem :=
  {| socks := socks m; objs := objs m; msgs := msgs m; peers := f (peers m) |}.

Definition set_mem (f : Mem -> Mem) (w : World) : World :=
  {| mem := f (mem w); conn_cache := conn_cache w;
     conn_hooks := conn_hooks w; trace := trace w |}.

Arguments set_socks _ _ /.
Arguments set_objs _ _ /.
Arguments set_msgs _ _ /.
Arguments set_peers _ _ /.
Arguments set_mem _ _ /.

Definition log (e : Event) : M unit :=
  fun w => Ret tt {| mem := mem w; conn_cache := conn_cache w;
                     conn_hooks := conn_hooks w; trace := trace w ++ [e] |}.

(** A read of memory, an update of memory, and a callee that returns a
    value and the memory it leaves. *)
Definition read_mem {A} (f : Mem -> A) : M A := fun w => Ret (f (mem w)) w.

Definition modify_mem (f : Mem -> Mem) : M unit :=
  fun w => Ret tt (set_mem f w).

Definition run_mem {A} (f : Mem -> A * Mem) : M A :=
  fun w => let '(r, m') := f (mem w) in Ret r (set_mem (fun _ => m') w).

Definition load_sock (sk : N) : M Sock :=
  fun w => match socks (mem w) !! sk with
           | Some s => Ret s w
           | None => Oops
           end.

Definition store_sock (sk : N) (s : Sock) : M unit :=
  fun w => match socks (mem w) !! sk with
           | Some _ => Ret tt (set_mem (set_socks <[sk := s]>) w)
           | None => Oops
           end.

(** Reading [((SsProto * )p)->type]: valid on a bare protocol record and on
    a connection, whose head is its [proto]. *)
Definition load_proto_type (p : option N) : M Z :=
  fun w => match p with
           | None => Oops
           | Some a =>
             match objs (mem w) !! a with
             | Some (ObjProto P) => Ret (type P) w
             | Some (ObjConn C) => Ret (TFW_CONN_TYPE C) w
             | None => Oops
             end
           end.

(** Reading a field beyond the head through a [TfwConnection *]. *)
Definition load_conn (c : option N) : M TfwConnection :=
  fun w => match c with
           | None => Oops
           | Some a =>
             match objs (mem w) !! a with
             | Some (ObjConn C) => Ret C w
             | _ => Oops
             end
           end.

Definition store_conn (c : N) (C : TfwConnection) : M unit :=
  fun w => match objs (mem w) !! c with
           | Some (ObjConn _) => Ret tt (set_mem (set_objs <[c := ObjConn C]>) w)
           | _ => Oops
           end.

(** [conn_hooks[i]->...]: the index must be inside the array and the slot
    must hold a hook set. *)
Definition hooks_at (i : Z) : M TfwConnHooks :=
  fun w => if i <? 0 then Oops
           else match conn_hooks w !! Z.to_nat i with
                | Some (Some h) => Ret h w
                | _ => Oops
                end.

Definition set_sk_user_data (p : option N) (s : Sock) : Sock :=
  {| sk_user_data := p; sk_destruct := sk_destruct s;
     sk_flags := sk_flags s; sk_daddr := sk_daddr s |}.

Definition set_sk_destruct (d : option fnptr) (s : Sock) : Sock :=
  {| sk_user_data := sk_user_data s; sk_destruct := d;
     sk_flags := sk_flags s; sk_daddr := sk_daddr s |}.

Definition set_sk_flags (f : Z) (s : Sock) : Sock :=
  {| sk_user_data := sk_user_data s; sk_destruct := sk_destruct s;
     sk_flags := f; sk_daddr := sk_daddr s |}.

Definition set_msg (m : option N) (C : TfwConnection) : TfwConnection :=
  {| proto := proto C; msg_queue := msg_queue C; msg := m; peer := peer C;
     sock := sock C; conn_sk_destruct := conn_sk_destruct C |}.

Definition set_sock (sk : option N) (C : TfwConnection) : TfwConnection :=
  {| proto := proto C; msg_queue := msg_queue C; msg := msg C; peer := peer C;
     sock := sk; conn_sk_destruct := conn_sk_destruct C |}.

Definition set_conn_sk_destruct (d : option fnptr) (C : TfwConnection)
  : TfwConnection :=
  {| proto := proto C; msg_queue := msg_queue C; msg := msg C; peer := peer C;
     sock := sock C; conn_sk_destruct := d |}.

Arguments set_sk_user_data _ _ /.
Arguments set_sk_destruct _ _ /.
Arguments set_sk_flags _ _ /.
Arguments set_msg _ _ /.
Arguments set_sock _ _ /.
Arguments set_conn_sk_destruct _ _ /.

(** [sock_set_flag(sk, flag)] of the kernel. *)
Definition sock_set_flag (sk : N) (flag : Z) : M unit :=
  s ← load_sock sk;
  store_sock sk (set_sk_flags (Z.lor (sk_flags s) (Z.shiftl 1 flag)) s).

(** ** Collaborators of the connection layer *)

(** Modelled from the spec: [ss_skb_queue_tail] (sync_socket.h is not under
    src/) appends the segment to the message's segment list, so that the
    list keeps the arrival order. *)
Definition ss_skb_queue_tail (m : option N) (skb : N) : M unit :=
  fun w => match m with
           | None => Oops
           | Some a =>
             match msgs (mem w) !! a with
             | Some x =>
               Ret tt (set_mem (set_msgs <[a := {| skb_list := skb_list x ++ [skb] |}]>) w)
             | None => Oops
             end
           end.

(** Removal of one list node: the first occurrence of [c]. *)
Fixpoint list_del (c : N) (l : list N) : list N :=
  match l with
  | [] => []
  | x :: l' => if N.eqb x c then l' else x :: list_del c l'
  end.

(** Modelled from the spec: [tfw_peer_del_conn] (peer.h is not under src/)
    unlinks the connection from the connection list of its peer. *)
Definition tfw_peer_del_conn (p : option N) (c : N) : M unit :=
  fun w => match p with
           | None => Oops
           | Some a =>
             match peers (mem w) !! a with
             | Some x =>
               Ret tt (set_mem (set_peers <[a := {| conn_list := list_del c (conn_list x) |}]>) w)
             | None => Oops
             end
           end.

(** [ss_close] belongs to the socket layer: the call is recorded. *)
Definition ss_close (sk : N) : M unit := log (EvSsClose sk).

(** ** connection.c *)

Section Connection.
Context {E : Externs}.

Definition TFW_CONN_MAX_PROTOS : Z := TFW_GFSM_FSM_N.

(** [kmem_cache_alloc(conn_cache, GFP_ATOMIC | __GFP_ZERO)]: the next
    outcome of the cache; a fresh object is zero-filled. *)
Definition zeroed_conn : TfwConnection :=
  {| proto := {| type := 0 |}; msg_queue := []; msg := None; peer := None;
     sock := None; conn_sk_destruct := None |}.

Definition kmem_cache_alloc : M (option N) :=
  fun w => match conn_cache w with
           | Some a :: rest =>
             Ret (Some a)
                 {| mem := set_objs <[a := ObjConn zeroed_conn]> (mem w);
                    conn_cache := rest; conn_hooks := conn_hooks w;
                    trace := trace w |}
           | None :: rest =>
             Ret None {| mem := mem w; conn_cache := rest;
                         conn_hooks := conn_hooks w; trace := trace w |}
           | [] => Ret None w
           end.

Definition kmem_cache_free (c : N) : M unit :=
  fun w => match objs (mem w) !! c with
           | Some _ => Ret tt (set_mem (set_objs (delete c)) w)
           | None => Oops
           end.

Definition tfw_connection_alloc (type : Z) : M (option N) :=
  c ← kmem_cache_alloc;
  match c with
  | None => mret None
  | Some a =>
    (* TFW_CONN_TYPE(c) = type; INIT_LIST_HEAD of list and msg_queue *)
    C ← load_conn (Some a);
    store_conn a {| proto := {| type := type |}; msg_queue := [];
                    msg := msg C; peer := peer C; sock := sock C;
                    conn_sk_destruct := conn_sk_destruct C |};;
    mret (Some a)
  end.

Definition tfw_connection_free (c : N) : M unit := kmem_cache_free c.

(** Invocation of a protocol callback: the call is recorded and the
    callback's effect on memory applied. *)
Definition call_conn_init (h : TfwConnHooks) (c : N) : M unit :=
  log (EvConnInit c);; modify_mem (conn_init h c).

Definition call_conn_destruct (h : TfwConnHooks) (c : N) : M unit :=
  log (EvConnDestruct c);; modify_mem (conn_destruct h c).

Definition call_conn_msg_alloc (h : TfwConnHooks) (c : N) : M (option N) :=
  log (EvConnMsgAlloc c);; run_mem (conn_msg_alloc h c).

Definition call_create_client (c : N) (a : TfwAddr) : M (option N) :=
  log (EvCreateClient c a);; run_mem (tfw_create_client c a).

Definition tfw_connection_new (sk : N) (type : Z) (destructor : option fnptr)
  : M (option N) :=
  if Z.land type (Z.lor Conn_Clnt Conn_Srv) =? 0 then bug
  else
    s ← load_sock sk;
    (* Type: connection direction BitwiseOR protocol. *)
    type ← match sk_user_data s with
           | Some p => pt ← load_proto_type (Some p); mret (Z.lor type pt)
           | None => mret type
           end;
    conn ← tfw_connection_alloc type;
    match conn with
    | None => mret None
    | Some c =>
      store_sock sk (set_sk_user_data (Some c) s);;
      match destructor with
      | Some d =>
        s1 ← load_sock sk;
        C ← load_conn (Some c);
        store_conn c (set_conn_sk_destruct (sk_destruct s1) C);;
        store_sock sk (set_sk_destruct (Some d) s1)
      | None => mret tt
      end;;
      C ← load_conn (Some c);
      store_conn c (set_sock (Some sk) C);;
      sock_set_flag sk SOCK_DBG;;
      h ← hooks_at (TFW_CONN_TYPE2IDX type);
      call_conn_init h c;;
      mret (Some c)
    end.

Definition tfw_connection_close (sk : N) : M Z :=
  s ← load_sock sk;
  let c := sk_user_data s in
  (* Classify the connection closing while all data structures are alive. *)
  v ← read_mem (fun m => tfw_classify_conn_close m sk);
  if verdict_is_block v then mret (- EPERM)
  else
    ty ← load_proto_type c;
    h ← hooks_at (TFW_CONN_TYPE2IDX ty);
    match c with
    | None => oops (* not reached: the read of the type went through c *)
    | Some a =>
      call_conn_destruct h a;;
      C ← load_conn c;
      tfw_peer_del_conn (peer C) a;;
      tfw_connection_free a;;
      s' ← load_sock sk;
      store_sock sk (set_sk_user_data None s');;
      mret 0
    end.

Definition tfw_connection_new_upcall (sk : N) : M Z :=
  (* Classify the connection before any resource allocations. *)
  v ← read_mem (fun m => tfw_classify_conn_estab m sk);
  if verdict_is_block v then mret (- EPERM)
  else
    conn ← tfw_connection_new sk Conn_Clnt (Some tfw_client_put);
    match conn with
    | None => ss_close sk;; mret (- ENOMEM)
    | Some c =>
      let addr := TfwAddr_zero in
      r ← call_create_client c addr;
      match r with
      | None => ss_close sk;; mret (- EINVAL)
      | Some _ => mret 0
      end
    end.

Definition tfw_connection_put_skb_to_msg (proto : N) (skb : N) : M Z :=
  let conn := proto in
  C ← load_conn (Some conn);
  m ← match msg C with
      | Some m => mret (Some m)
      | None =>
        let i := TFW_CONN_TYPE2IDX (TFW_CONN_TYPE C) in
        h ← hooks_at i;
        m ← call_conn_msg_alloc h conn;
        C' ← load_conn (Some conn);
        store_conn conn (set_msg m C');;
        mret m
      end;
  match m with
  | None => mret (- ENOMEM)
  | Some _ => ss_skb_queue_tail m skb;; mret 0
  end.

Definition tfw_connection_postpone_skb (proto : N) (skb : N) : M Z :=
  let conn := proto in
  C ← load_conn (Some conn);
  ss_skb_queue_tail (msg C) skb;;
  mret 0.

Definition tfw_connection_hooks_register (hooks : option TfwConnHooks)
    (type : Z) : M unit :=
  fun w =>
    let hid := to_unsigned (TFW_CONN_TYPE2IDX type) in
    if to_unsigned TFW_CONN_MAX_PROTOS <=? hid then Bug
    else match conn_hooks w !! Z.to_nat hid with
         | None => Oops
         | Some (Some _) => Bug
         | Some None =>
           Ret tt {| mem := mem w; conn_cache := conn_cache w;
                     conn_hooks := <[Z.to_nat hid := hooks]> (conn_hooks w);
                     trace := trace w |}
         end.

End Connection.

(** ** A concrete configuration

    Used to run the functions on explicit inputs. *)

Module Demo.

(** Modelled from the spec: the tag layout of connection.h and gfsm.h, which
    are not under src/.  The low bits hold the protocol index, in
    [[0, MAX_PROTOS)]; two dedicated bits above them mark client-facing and
    server-facing; the index macro strips the direction bits. *)
Definition Conn_Bits : Z := 8.
Definition Conn_Clnt : Z := Z.shiftl 1 Conn_Bits.
Definition Conn_Srv : Z := Z.shiftl 2 Conn_Bits.
Definition TFW_GFSM_FSM_N : Z := 16.
Definition TFW_CONN_TYPE2IDX (t : Z) : Z := Z.land t (TFW_GFSM_FSM_N - 1).

(** A classifier that vetoes the establishment on socket 13 and the close
    of socket 14. *)
Definition classify_estab (m : Mem) (sk : N) : verdict :=
  if N.eqb sk 13 then TFW_BLOCK else TFW_PASS.

Definition classify_close (m : Mem) (sk : N) : verdict :=
  if N.eqb sk 14 then TFW_BLOCK else TFW_PASS.

(** A client registry with room for one client, at address 500: it links
    the connection onto the client's list, or fails when the client slot is
    taken or the connection is not there. *)
Definition create_client (c : N) (a : TfwAddr) (m : Mem) : option N * Mem :=
  match peers m !! 500%N, objs m !! c with
  | None, Some (ObjConn C) =>
    (Some 500%N,
     set_peers <[500%N := {| conn_list := [c] |}]>
       (set_objs <[c := ObjConn {| proto := proto C; msg_queue := msg_queue C;
                                   msg := msg C; peer := Some 500%N;
                                   sock := sock C;
                                   conn_sk_destruct := conn_sk_destruct C |}]> m))
  | _, _ => (None, m)
  end.

#[export] Instance externs : Externs :=
  Build_Externs Conn_Clnt Conn_Srv TFW_CONN_TYPE2IDX TFW_GFSM_FSM_N
                classify_estab classify_close create_client.

(** A protocol whose callbacks leave memory alone, except that
    [conn_msg_alloc] creates an empty message at address 1000 plus the
    number of messages. *)
Definition http_hooks : TfwConnHooks := {|
  conn_init := fun _ m => m;
  conn_destruct := fun _ m => m;
  conn_msg_alloc := fun _ m =>
    let a := (1000 + N.of_nat (size (msgs m)))%N in
    (Some a, set_msgs <[a := {| skb_list := [] |}]> m)
|}.

(** A protocol that cannot allocate messages. *)
Definition starved_hooks : TfwConnHooks := {|
  conn_init := fun _ m => m;
  conn_destruct := fun _ m => m;
  conn_msg_alloc := fun _ m => (None, m)
|}.

Definition hooks_table : list (option TfwConnHooks) :=
  <[1%nat := Some starved_hooks]>
    (<[0%nat := Some http_hooks]> (replicate 16 None)).

Definition plain_sock (ud : option N) (d : option fnptr) (a : TfwAddr) : Sock :=
  {| sk_user_data := ud; sk_destruct := d; sk_flags := 0; sk_daddr := a |}.

Definition remote : TfwAddr :=
  {| family := 2; port := 8080; in_addr := 167772161 |}.

(** Sockets 1, 13 and 14 are fresh; socket 2 is pre-bound to the protocol
    record 20 whose tag carries the server direction bit; socket 3 is
    pre-bound to the protocol record 21 (index 1). *)
Definition mem0 : Mem := {|
  socks := list_to_map
    [(1%N, plain_sock None (Some "sock_def_destruct"%string) remote);
     (2%N, plain_sock (Some 20%N) None remote);
     (3%N, plain_sock (Some 21%N) None remote);
     (13%N, plain_sock None None remote);
     (14%N, plain_sock None None remote)];
  objs := list_to_map
    [(20%N, ObjProto {| type := Conn_Srv |});
     (21%N, ObjProto {| type := 1 |})];
  msgs := ∅;
  peers := ∅
|}.

Definition world0 : World := {|
  mem := mem0;
  conn_cache := [Some 100%N; Some 101%N; Some 102%N; None; Some 103%N];
  conn_hooks := hooks_table;
  trace := []
|}.

(** The world a run leaves, or the initial one if the run faults. *)
Definition run {A} (f : M A) (w : World) : World :=
  match f w with
  | Ret _ w' => w'
  | _ => w
  end.

(** After the passive open of socket 1: connection 100 (protocol 0) is
    registered with client 500. *)
Definition world_open : World := run (tfw_connection_new_upcall 1) world0.

(** After, in addition, creations on sockets 3 and 14: connection 101
    (protocol 1) is bound to socket 3 and connection 102 to socket 14. *)
Definition world_live : World :=
  run (tfw_connection_new 14 Conn_Clnt None)
      (run (tfw_connection_new 3 Conn_Clnt None) world_open).

(** After, in addition, a first segment on connection 100. *)
Definition world_msg : World :=
  run (tfw_connection_put_skb_to_msg 100 7) world_live.

(** The world with an exhausted cache. *)
Definition world_oom : World := {|
  mem := mem0; conn_cache := []; conn_hooks := hooks_table; trace := []
|}.

End Demo.

(** ** Vocabulary of the statements *)

(** The tag read through [(SsProto * )p]. *)
Definition proto_type_at (m : Mem) (p : N) : option Z :=
  match objs m !! p with
  | Some (ObjProto P) => Some (type P)
  | Some (ObjConn C) => Some (TFW_CONN_TYPE C)
  | None => None
  end.

(** The type tag that [tfw_connection_new] gives the connection: the
    requested one, OR-ed with the tag found behind [sk_user_data]. *)
Definition effective_type (m : Mem) (s : Sock) (type : Z) : option Z :=
  match sk_user_data s with
  | Some p => pt ← proto_type_at m p; Some (Z.lor type pt)
  | None => Some type
  end.

(** Memory at the moment [tfw_connection_new] calls [conn_init]: socket
    [sk] (whose record was [s]) and the fresh connection [c] wired to each
    other. *)
Definition wired (m : Mem) (sk : N) (s : Sock) (c : N) (ty : Z)
    (d : option fnptr) : Mem :=
  {| socks :=
       <[sk := {| sk_user_data := Some c;
                  sk_destruct := match d with
                                 | Some _ => d
                                 | None => sk_destruct s
                                 end;
                  sk_flags := Z.lor (sk_flags s) (Z.shiftl 1 SOCK_DBG);
                  sk_daddr := sk_daddr s |}]> (socks m);
     objs :=
       <[c := ObjConn {| proto := {| type := ty |}; msg_queue := [];
                         msg := None; peer := None; sock := Some sk;
                         conn_sk_destruct := match d with
                                             | Some _ => sk_destruct s
                                             | None => None
                                             end |}]> (objs m);
     msgs := msgs m;
     peers := peers m |}.

(** The hook set at index [i] of the table, when the index is in range and
    the slot is occupied. *)
Definition hooks_lookup (w : World) (i : Z) : option TfwConnHooks :=
  if i <? 0 then None
  else match conn_hooks w !! Z.to_nat i with
       | Some (Some h) => Some h
       | _ => None
       end.

(** The direction bits of a tag. *)
Definition direction_bits {E : Externs} (t : Z) : Z :=
  Z.land t (Z.lor Conn_Clnt Conn_Srv).

(** Socket [sk] and connection [c] point to each other. *)
Definition bound (m : Mem) (sk c : N) : Prop :=
  (∃ s, socks m !! sk = Some s ∧ sk_user_data s = Some c) ∧
  (∃ C, objs m !! c = Some (ObjConn C) ∧ sock C = Some sk).

(** Memory after a completed [tfw_connection_close]: starting from the
    memory [m1] left by [conn_destruct], connection [c] is off the list of
    its peer [p] (whose record was [P]), its record is released, and the
    user-data slot of socket [sk] (whose record was [s1]) is empty. *)
Definition torn_down (m1 : Mem) (sk : N) (s1 : Sock) (c p : N) (P : TfwPeer)
  : Mem :=
  {| socks := <[sk := set_sk_user_data None s1]> (socks m1);
     objs := delete c (objs m1);
     msgs := msgs m1;
     peers := <[p := {| conn_list := list_del c (conn_list P) |}]> (peers m1) |}.

(** A world with another memory and an extended log. *)
Definition next_world (w : World) (m : Mem) (evs : list Event) : World :=
  {| mem := m; conn_cache := conn_cache w; conn_hooks := conn_hooks w;
     trace := trace w ++ evs |}.

(** What [tfw_connection_new] does with the destructors, given the socket
    record [s] it found and the records [s'] and [C'] it leaves: capture
    and replace when a destructor is supplied, nothing otherwise. *)
Definition destructor_outcome (d : option fnptr) (s s' : Sock)
    (C' : TfwConnection) : Prop :=
  match d with
  | None => sk_destruct s' = sk_destruct s ∧ conn_sk_destruct C' = None
  | Some f => sk_destruct s' = Some f ∧ conn_sk_destruct C' = sk_destruct s
  end.

(** Memory [m'] has the records of socket [sk] and of object [c] as in [m]:
    the condition on a protocol callback under which a statement about the
    memory it is handed carries over to the memory it returns. *)
Definition leaves_alone (m m' : Mem) (sk c : N) : Prop :=
  socks m' !! sk = socks m !! sk ∧ objs m' !! c = objs m !! c.

(** The [sock] field behind an object, when the object is a connection. *)
Definition obj_sock (o : ProtoObj) : option (option N) :=
  match o with
  | ObjConn C => Some (sock C)
  | ObjProto _ => None
  end.

(** Memories [m] and [m'] agree on what the binding is made of: the
    user-data slot of every socket, which objects are connections, and the
    [sock] field of every connection. *)
Definition same_binding (m m' : Mem) : Prop :=
  (∀ sk, sk_user_data <$> socks m' !! sk = sk_user_data <$> socks m !! sk) ∧
  (∀ a, obj_sock <$> objs m' !! a = obj_sock <$> objs m !! a).

(** A protocol whose callbacks do not interfere with the binding. *)
Definition hooks_keep_binding (h : TfwConnHooks) : Prop :=
  ∀ c m, same_binding m (conn_init h c m) ∧
         same_binding m (conn_destruct h c m) ∧
         same_binding m (conn_msg_alloc h c m).2.

(** Every connection record is bound, both ways, to its socket. *)
Definition binding_invariant (m : Mem) : Prop :=
  ∀ c C, objs m !! c = Some (ObjConn C) → ∃ sk, bound m sk c.

(** The invariant of the module state: the binding of every live
    connection, with registered protocols that respect it. *)
Definition world_ok (w : World) : Prop :=
  binding_invariant (mem w) ∧
  ∀ i h, conn_hooks w !! i = Some (Some h) → hooks_keep_binding h.

(** Socket [sk] carries no connection: its user-data slot is empty or
    holds something else than a connection record. *)
Definition unbound (m : Mem) (sk : N) : Prop :=
  ∀ s c C, socks m !! sk = Some s → sk_user_data s = Some c →
           objs m !! c ≠ Some (ObjConn C).

(** No registered protocol touches the records of socket [sk] and of
    connection [c] in its [conn_init]. *)
Definition conn_init_leaves_alone (w : World) (sk c : N) : Prop :=
  ∀ j h m, conn_hooks w !! j = Some (Some h) →
           leaves_alone m (conn_init h c m) sk c.

(** ** The rest of connection.c: send, receive, hook table, module life cycle *)

(** Collaborators of the send and receive paths, outside this file:
    [ss_send] of the socket layer, given the socket and the address of the
    message whose segment list it transmits, and the dispatcher
    [tfw_gfsm_dispatch] of gfsm.h, given the connection and the data. *)
Class SockLayer := {
  ss_send : option N -> option N -> Mem -> Mem;
  tfw_gfsm_dispatch : option N -> list Byte.byte -> Mem -> Z * Mem
}.

Section ConnectionIO.
Context {E : Externs} {L : SockLayer}.

Definition tfw_connection_send (conn : option N) (msg : option N) : M unit :=
  C ← load_conn conn;
  modify_mem (ss_send (sock C) msg).

Definition tfw_connection_recv (sk : N) (data : list Byte.byte) : M Z :=
  s ← load_sock sk;
  let conn := sk_user_data s in
  run_mem (tfw_gfsm_dispatch conn data).

(** [SsHooks] and the table [ssocket_hooks] handed to the socket layer. *)
Record SsHooks := {
  connection_new : N -> M Z;
  connection_drop : N -> M Z;
  connection_recv : N -> list Byte.byte -> M Z;
  put_skb_to_msg : N -> N -> M Z;
  postpone_skb : N -> N -> M Z
}.

Definition ssocket_hooks : SsHooks := {|
  connection_new := tfw_connection_new_upcall;
  connection_drop := tfw_connection_close;
  connection_recv := tfw_connection_recv;
  put_skb_to_msg := tfw_connection_put_skb_to_msg;
  postpone_skb := tfw_connection_postpone_skb
|}.

(** The upcalls the socket layer makes for a run of segments of one
    connection, through [put_skb_to_msg] of the table: one call per
    segment, in arrival order, up to the first error. *)
Fixpoint put_skbs (conn : N) (skbs : list N) : M Z :=
  match skbs with
  | [] => mret 0
  | skb :: rest =>
    r ← put_skb_to_msg ssocket_hooks conn skb;
    if r =? 0 then put_skbs conn rest else mret r
  end.

End ConnectionIO.

(** Module life cycle.  The calls that [tfw_connection_init] and
    [tfw_connection_exit] make to the kernel and to the socket layer are
    recorded; the static pointer [conn_cache] is [conn_cache_ptr]. *)
Inductive ModEvent :=
| EvKmemCacheCreate (name : string)
| EvSsHooksRegister
| EvSsHooksUnregister
| EvKmemCacheDestroy (cache : option N).

Record ModState := {
  conn_cache_ptr : option N;
  mod_trace : list ModEvent
}.

(** [cache] is what [kmem_cache_create] returns and [r] what
    [ss_hooks_register] returns if it is called. *)
Definition tfw_connection_init (cache : option N) (r : Z) (st : ModState)
  : Z * ModState :=
  let st1 := {| conn_cache_ptr := cache;
                mod_trace := mod_trace st
                             ++ [EvKmemCacheCreate "tfw_conn_cache"] |} in
  match conn_cache_ptr st1 with
  | None => (- ENOMEM, st1)
  | Some _ =>
    let st2 := {| conn_cache_ptr := conn_cache_ptr st1;
                  mod_trace := mod_trace st1 ++ [EvSsHooksRegister] |} in
    if r =? 0 then (r, st2)
    else (r, {| conn_cache_ptr := conn_cache_ptr st2;
                mod_trace := mod_trace st2
                             ++ [EvKmemCacheDestroy (conn_cache_ptr st2)] |})
  end.

Definition tfw_connection_exit (st : ModState) : ModState :=
  {| conn_cache_ptr := conn_cache_ptr st;
     mod_trace := mod_trace st
                  ++ [EvSsHooksUnregister;
                      EvKmemCacheDestroy (conn_cache_ptr st)] |}.

(** The number of times cache [c] is destroyed in a log. *)
Fixpoint destroy_count (c : N) (l : list ModEvent) : nat :=
  match l with
  | [] => 0
  | EvKmemCacheDestroy (Some c') :: l' =>
    (if N.eqb c' c then 1 else 0) + destroy_count c l'
  | _ :: l' => destroy_count c l'
  end.

(** A socket layer for the concrete configuration: [ss_send] moves the
    segments of the message to the message kept at the address of the
    socket (its transmit queue), and the dispatcher returns the length of
    the data, or -1 without a connection. *)
Module DemoIO.

Definition send (sk msg : option N) (m : Mem) : Mem :=
  match sk, msg with
  | Some s, Some a =>
    match msgs m !! a with
    | Some X =>
      set_msgs (fun ms => <[s := X]> (<[a := {| skb_list := [] |}]> ms)) m
    | None => m
    end
  | _, _ => m
  end.

Definition dispatch (conn : option N) (data : list Byte.byte) (m : Mem)
  : Z * Mem :=
  match conn with
  | Some _ => (Z.of_nat (length data), m)
  | None => (-1, m)
  end.

#[export] Instance sock_layer : SockLayer := Build_SockLayer send dispatch.

(** The record of connection 100 in the worlds of the configuration, with
    message [m] in flight. *)
Definition conn100 (m : option N) : TfwConnection :=
  {| proto := {| type := 256 |}; msg_queue := []; msg := m;
     peer := Some 500%N; sock := Some 1%N;
     conn_sk_destruct := Some "sock_def_destruct"%string |}.

End DemoIO.

(** ** Properties *)

Section Properties.
Context {E : Externs}.

Ltac unfold_monad :=
  repeat progress unfold mbind, mret, M_bind, M_ret, bug, oops, read_mem, modify_mem, run_mem,
    log, load_sock, store_sock, load_proto_type, load_conn, store_conn,
    hooks_at, sock_set_flag, ss_skb_queue_tail, tfw_peer_del_conn,
    ss_close, kmem_cache_alloc, kmem_cache_free, tfw_connection_alloc,
    tfw_connection_free, call_conn_init, call_conn_destruct,
    call_conn_msg_alloc, call_create_client in *.

Ltac map_simpl :=
  repeat (simpl; rewrite ?lookup_insert_eq, ?insert_insert_eq).

(** [tfw_connection_new] in closed form. *)
Lemma tfw_connection_new_unfold (sk : N) (type : Z) (d : option fnptr) (w : World) :
  tfw_connection_new sk type d w =
  if Z.land type (Z.lor Conn_Clnt Conn_Srv) =? 0 then Bug
  else match socks (mem w) !! sk with
       | None => Oops
       | Some s =>
         match effective_type (mem w) s type with
         | None => Oops
         | Some ty =>
           match conn_cache w with
           | [] => Ret None w
           | None :: rest =>
             Ret None {| mem := mem w; conn_cache := rest;
                         conn_hooks := conn_hooks w; trace := trace w |}
           | Some c :: rest =>
             match hooks_lookup w (TFW_CONN_TYPE2IDX ty) with
             | None => Oops
             | Some h =>
               Ret (Some c)
                   {| mem := conn_init h c (wired (mem w) sk s c ty d);
                      conn_cache := rest; conn_hooks := conn_hooks w;
                      trace := trace w ++ [EvConnInit c] |}
             end
           end
         end
       end.
Proof.
  unfold tfw_connection_new, effective_type, proto_type_at, hooks_lookup.
  destruct (Z.land type (Z.lor Conn_Clnt Conn_Srv) =? 0); [reflexivity|].
  unfold_monad.
  destruct (socks (mem w) !! sk) as [s|] eqn:Hs; [|reflexivity].
  destruct w as [m cache hooks tr]; simpl in *.
  destruct (sk_user_data s) as [p|] eqn:Hud; simpl.
  - destruct (objs m !! p) as [[P|C]|] eqn:Hp; simpl; [| |reflexivity].
    all: destruct cache as [|[c|] rest]; map_simpl; try reflexivity.
    all: rewrite Hs; map_simpl.
    all: destruct d as [d|]; map_simpl.
    all: destruct (TFW_CONN_TYPE2IDX _ <? 0); try reflexivity.
    all: destruct (hooks !! _) as [[h|]|]; try reflexivity.
    all: unfold wired; map_simpl; reflexivity.
  - destruct cache as [|[c|] rest]; map_simpl; try reflexivity.
    rewrite Hs; map_simpl.
    destruct d as [d|]; map_simpl.
    all: destruct (TFW_CONN_TYPE2IDX _ <? 0); try reflexivity.
    all: destruct (hooks !! _) as [[h|]|]; try reflexivity.
    all: unfold wired; map_simpl; reflexivity.
Qed.

(** [tfw_connection_close] in closed form. *)
Lemma tfw_connection_close_unfold (sk : N) (w : World) :
  tfw_connection_close sk w =
  match socks (mem w) !! sk with
  | None => Oops
  | Some s =>
    if verdict_is_block (tfw_classify_conn_close (mem w) sk) then Ret (- EPERM) w
    else
      match sk_user_data s with
      | None => Oops
      | Some c =>
        match proto_type_at (mem w) c with
        | None => Oops
        | Some ty =>
          match hooks_lookup w (TFW_CONN_TYPE2IDX ty) with
          | None => Oops
          | Some h =>
            let m1 := conn_destruct h c (mem w) in
            match objs m1 !! c with
            | Some (ObjConn C1) =>
              match peer C1 with
              | None => Oops
              | Some p =>
                match peers m1 !! p with
                | None => Oops
                | Some P =>
                  match socks m1 !! sk with
                  | None => Oops
                  | Some s1 =>
                    Ret 0 (next_world w (torn_down m1 sk s1 c p P)
                                      [EvConnDestruct c])
                  end
                end
              end
            | _ => Oops
            end
          end
        end
      end
  end.
Proof.
  unfold tfw_connection_close, proto_type_at, hooks_lookup.
  unfold_monad.
  destruct (socks (mem w) !! sk) as [s|] eqn:Hs; [|reflexivity].
  destruct (verdict_is_block _); [reflexivity|].
  destruct (sk_user_data s) as [c|]; [|reflexivity].
  destruct (objs (mem w) !! c) as [[P0|C0]|]; [| |reflexivity].
  all: destruct (TFW_CONN_TYPE2IDX _ <? 0); [reflexivity|].
  all: destruct (conn_hooks w !! _) as [[h|]|]; try reflexivity.
  all: simpl.
  all: destruct (objs (conn_destruct h c (mem w)) !! c) as [[P1|C1]|] eqn:Hc;
    simpl; try reflexivity.
  all: destruct (peer C1) as [p|]; simpl; [|reflexivity].
  all: destruct (peers (conn_destruct h c (mem w)) !! p) as [P|]; simpl;
    [|reflexivity]; rewrite Hc; simpl.
  all: destruct (socks (conn_destruct h c (mem w)) !! sk) as [s1|] eqn:Hs1;
    simpl; [|reflexivity].
  all: rewrite Hs1; reflexivity.
Qed.

(** [tfw_connection_new_upcall] in closed form, over [tfw_connection_new]. *)
Lemma tfw_connection_new_upcall_unfold (sk : N) (w : World) :
  tfw_connection_new_upcall sk w =
  if verdict_is_block (tfw_classify_conn_estab (mem w) sk) then Ret (- EPERM) w
  else
    match tfw_connection_new sk Conn_Clnt (Some tfw_client_put) w with
    | Ret None w1 => Ret (- ENOMEM) (next_world w1 (mem w1) [EvSsClose sk])
    | Ret (Some c) w1 =>
      match tfw_create_client c TfwAddr_zero (mem w1) with
      | (None, m2) =>
        Ret (- EINVAL)
            (next_world w1 m2 [EvCreateClient c TfwAddr_zero; EvSsClose sk])
      | (Some _, m2) =>
        Ret 0 (next_world w1 m2 [EvCreateClient c TfwAddr_zero])
      end
    | Bug => Bug
    | Oops => Oops
    end.
Proof.
  unfold tfw_connection_new_upcall.
  unfold mbind at 1. unfold M_bind at 1. unfold read_mem.
  destruct (verdict_is_block _); [reflexivity|].
  unfold mbind at 1. unfold M_bind at 1.
  destruct (tfw_connection_new sk Conn_Clnt (Some tfw_client_put) w)
    as [[c|] w1| |]; try reflexivity.
  - unfold_monad. simpl.
    destruct (tfw_create_client c TfwAddr_zero (mem w1)) as [[cl|] m2]; simpl.
    + reflexivity.
    + unfold next_world. simpl. rewrite <- app_assoc. reflexivity.
Qed.

(** [tfw_connection_put_skb_to_msg] in closed form. *)
Lemma tfw_connection_put_skb_to_msg_unfold (conn skb : N) (w : World) :
  tfw_connection_put_skb_to_msg conn skb w =
  match objs (mem w) !! conn with
  | Some (ObjConn C) =>
    match msg C with
    | Some m =>
      match msgs (mem w) !! m with
      | Some X =>
        Ret 0 (next_world w
                 (set_msgs <[m := {| skb_list := skb_list X ++ [skb] |}]> (mem w))
                 [])
      | None => Oops
      end
    | None =>
      match hooks_lookup w (TFW_CONN_TYPE2IDX (TFW_CONN_TYPE C)) with
      | None => Oops
      | Some h =>
        let '(r, m1) := conn_msg_alloc h conn (mem w) in
        match objs m1 !! conn with
        | Some (ObjConn C1) =>
          let m2 := set_objs <[conn := ObjConn (set_msg r C1)]> m1 in
          match r with
          | None => Ret (- ENOMEM) (next_world w m2 [EvConnMsgAlloc conn])
          | Some m =>
            match msgs m1 !! m with
            | Some X =>
              Ret 0 (next_world w
                       (set_msgs <[m := {| skb_list := skb_list X ++ [skb] |}]> m2)
                       [EvConnMsgAlloc conn])
            | None => Oops
            end
          end
        | _ => Oops
        end
      end
    end
  | _ => Oops
  end.
Proof.
  unfold tfw_connection_put_skb_to_msg, hooks_lookup.
  unfold_monad.
  destruct w as [m0 cache hooks tr]; simpl.
  destruct (objs m0 !! conn) as [[P0|C]|]; try reflexivity.
  destruct (msg C) as [m|]; simpl.
  - destruct (msgs m0 !! m) as [X|]; [|reflexivity].
    unfold next_world, set_mem. simpl. rewrite app_nil_r. reflexivity.
  - destruct (TFW_CONN_TYPE2IDX _ <? 0); [reflexivity|].
    destruct (hooks !! _) as [[h|]|]; try reflexivity.
    simpl.
    destruct (conn_msg_alloc h conn m0) as [r m1]; simpl.
    destruct (objs m1 !! conn) as [[P1|C1]|] eqn:HC1; simpl;
      try reflexivity.
    rewrite HC1; simpl.
    destruct r as [m|]; simpl; [|reflexivity].
    destruct (msgs m1 !! m) as [X|]; reflexivity.
Qed.

(** [tfw_connection_postpone_skb] in closed form. *)
Lemma tfw_connection_postpone_skb_unfold (conn skb : N) (w : World) :
  tfw_connection_postpone_skb conn skb w =
  match objs (mem w) !! conn with
  | Some (ObjConn C) =>
    match msg C with
    | Some m =>
      match msgs (mem w) !! m with
      | Some X =>
        Ret 0 (next_world w
                 (set_msgs <[m := {| skb_list := skb_list X ++ [skb] |}]> (mem w))
                 [])
      | None => Oops
      end
    | None => Oops
    end
  | _ => Oops
  end.
Proof.
  unfold tfw_connection_postpone_skb.
  unfold_monad.
  destruct w as [m0 cache hooks tr]; simpl.
  destruct (objs m0 !! conn) as [[P0|C]|]; try reflexivity.
  destruct (msg C) as [m|]; simpl; [|reflexivity].
  destruct (msgs m0 !! m) as [X|]; [|reflexivity].
  unfold next_world, set_mem. simpl. rewrite app_nil_r. reflexivity.
Qed.

(** A call of [tfw_connection_new] that returns a connection ran every
    step: the assertion passed, the socket and the pre-bound tag were
    readable, the cache produced [c], and the hook slot was occupied. *)
Lemma tfw_connection_new_success (sk : N) (type : Z) (d : option fnptr)
    (w w' : World) (c : N) :
  tfw_connection_new sk type d w = Ret (Some c) w' →
  ∃ s ty rest h,
    Z.land type (Z.lor Conn_Clnt Conn_Srv) ≠ 0 ∧
    socks (mem w) !! sk = Some s ∧
    effective_type (mem w) s type = Some ty ∧
    conn_cache w = Some c :: rest ∧
    hooks_lookup w (TFW_CONN_TYPE2IDX ty) = Some h ∧
    w' = {| mem := conn_init h c (wired (mem w) sk s c ty d);
            conn_cache := rest; conn_hooks := conn_hooks w;
            trace := trace w ++ [EvConnInit c] |}.
Proof.
  rewrite tfw_connection_new_unfold.
  destruct (Z.land type (Z.lor Conn_Clnt Conn_Srv) =? 0) eqn:Hdir; [done|].
  destruct (socks (mem w) !! sk) as [s|]; [|done].
  destruct (effective_type (mem w) s type) as [ty|] eqn:Hty; [|done].
  destruct (conn_cache w) as [|[a|] rest]; [done| |done].
  destruct (hooks_lookup w (TFW_CONN_TYPE2IDX ty)) as [h|] eqn:Hh; [|done].
  intros [= -> <-].
  exists s, ty, rest, h. repeat split; try done.
  by apply Z.eqb_neq.
Qed.

(** A hook set found by index sits in some slot of the table. *)
Lemma hooks_lookup_registered (w : World) (i : Z) (h : TfwConnHooks) :
  hooks_lookup w i = Some h → ∃ j, conn_hooks w !! j = Some (Some h).
Proof.
  unfold hooks_lookup. destruct (i <? 0); [done|].
  destruct (conn_hooks w !! Z.to_nat i) as [[h'|]|] eqn:Hj; try done.
  intros [= ->]. by exists (Z.to_nat i).
Qed.

(** The wired memory binds the socket and the connection to each other. *)
Lemma wired_bound (m : Mem) (sk : N) (s : Sock) (c : N) (ty : Z)
    (d : option fnptr) :
  bound (wired m sk s c ty d) sk c.
Proof.
  split; simpl.
  - eexists. rewrite lookup_insert_eq. done.
  - eexists. rewrite lookup_insert_eq. done.
Qed.

(** C8. [tfw_connection_hooks_register]: with [hid] the index derived from
    the type, the call hits the assertion when [hid >= TFW_CONN_MAX_PROTOS]
    or when slot [hid] is occupied; otherwise the slot exists, it receives
    the hook set, every other slot keeps its content, and nothing else in
    the module state changes. *)
Theorem tfw_connection_hooks_register_contract
    (hooks : option TfwConnHooks) (type : Z) (w : World) :
  0 <= TFW_CONN_MAX_PROTOS < 2 ^ 32 →
  length (conn_hooks w) = Z.to_nat TFW_CONN_MAX_PROTOS →
  let hid := to_unsigned (TFW_CONN_TYPE2IDX type) in
  (TFW_CONN_MAX_PROTOS <= hid →
   tfw_connection_hooks_register hooks type w = Bug) ∧
  ((∃ h, conn_hooks w !! Z.to_nat hid = Some (Some h)) →
   tfw_connection_hooks_register hooks type w = Bug) ∧
  (hid < TFW_CONN_MAX_PROTOS →
   conn_hooks w !! Z.to_nat hid ≠ None ∧
   (conn_hooks w !! Z.to_nat hid = Some None →
    ∃ w', tfw_connection_hooks_register hooks type w = Ret tt w' ∧
          conn_hooks w' !! Z.to_nat hid = Some hooks ∧
          (∀ j, j ≠ Z.to_nat hid → conn_hooks w' !! j = conn_hooks w !! j) ∧
          length (conn_hooks w') = length (conn_hooks w) ∧
          mem w' = mem w ∧ conn_cache w' = conn_cache w ∧
          trace w' = trace w)).
Proof.
  intros Hmax Hlen hid.
  assert (Hmod : to_unsigned TFW_CONN_MAX_PROTOS = TFW_CONN_MAX_PROTOS).
  { unfold to_unsigned. apply Z.mod_small. lia. }
  assert (Hhid : 0 <= hid).
  { unfold hid, to_unsigned. apply Z.mod_pos_bound. lia. }
  unfold tfw_connection_hooks_register. fold hid. rewrite Hmod.
  split; [|split].
  - intros Hge. apply Z.leb_le in Hge. by rewrite Hge.
  - intros [h Hh]. destruct (TFW_CONN_MAX_PROTOS <=? hid); [done|].
    by rewrite Hh.
  - intros Hlt.
    assert (Hin : (Z.to_nat hid < length (conn_hooks w))%nat) by lia.
    split.
    + apply lookup_lt_is_Some in Hin. destruct Hin as [x Hx]. by rewrite Hx.
    + intros Hfree.
      assert (Hleb : (TFW_CONN_MAX_PROTOS <=? hid) = false)
        by (apply Z.leb_gt; lia).
      rewrite Hleb, Hfree. eexists. split; [reflexivity|]. simpl.
      split; [by apply list_lookup_insert_eq|].
      split; [intros j Hj; by apply list_lookup_insert_ne|].
      split; [apply length_insert|done].
Qed.

(** C5. When the classifier vetoes the establishment, the passive-open
    upcall returns [-EPERM] and the world it leaves is the world it found:
    the slab cache is not consulted, no record is created, no callback is
    logged, and the socket keeps its user-data slot and destructor. *)
Theorem tfw_connection_new_upcall_blocked (sk : N) (w : World) :
  tfw_classify_conn_estab (mem w) sk = TFW_BLOCK →
  tfw_connection_new_upcall sk w = Ret (- EPERM) w.
Proof.
  intros Hv. rewrite tfw_connection_new_upcall_unfold, Hv. reflexivity.
Qed.

(** C7. When the allocator is reached and fails, [tfw_connection_new]
    returns NULL; memory, hence the socket with its user-data slot and its
    destructor, is what it was, and no callback is logged: only the failed
    allocation is consumed from the cache. *)
Theorem tfw_connection_new_alloc_failure (sk : N) (type : Z)
    (d : option fnptr) (w : World) (s : Sock) (ty : Z) :
  Z.land type (Z.lor Conn_Clnt Conn_Srv) ≠ 0 →
  socks (mem w) !! sk = Some s →
  effective_type (mem w) s type = Some ty →
  (∀ a, head (conn_cache w) ≠ Some (Some a)) →
  ∃ w', tfw_connection_new sk type d w = Ret None w' ∧
        mem w' = mem w ∧
        socks (mem w') !! sk = Some s ∧
        (sk_user_data s = None →
         sk_user_data <$> socks (mem w') !! sk = Some None) ∧
        trace w' = trace w ∧
        conn_hooks w' = conn_hooks w ∧
        conn_cache w' = tail (conn_cache w).
Proof.
  intros Hdir Hs Hty Hfail.
  rewrite tfw_connection_new_unfold.
  apply Z.eqb_neq in Hdir. rewrite Hdir, Hs, Hty.
  destruct w as [m cache hooks tr]; simpl in *.
  destruct cache as [|[a|] rest]; simpl in *.
  - eexists; split; [reflexivity|]. simpl. rewrite Hs.
    repeat split; try done. simpl. congruence.
  - by destruct (Hfail a).
  - eexists; split; [reflexivity|]. simpl. rewrite Hs.
    repeat split; try done. simpl. congruence.
Qed.

(** C10. A call of [tfw_connection_new] that returns connection [c] hands
    [conn_init] a memory in which, for a null destructor, the socket still
    has the destructor it had and the chained-destructor field of [c] is
    empty; the socket destructor is captured into [c] and replaced exactly
    when a destructor is supplied.  The same holds of the memory the call
    leaves when the registered protocols leave the two records alone in
    [conn_init]. *)
Theorem tfw_connection_new_destructor (sk : N) (type : Z) (d : option fnptr)
    (w w' : World) (c : N) :
  tfw_connection_new sk type d w = Ret (Some c) w' →
  ∃ s,
    socks (mem w) !! sk = Some s ∧
    (∃ h m0 s0 C0,
       mem w' = conn_init h c m0 ∧
       socks m0 !! sk = Some s0 ∧ objs m0 !! c = Some (ObjConn C0) ∧
       destructor_outcome d s s0 C0) ∧
    (conn_init_leaves_alone w sk c →
     ∃ s' C', socks (mem w') !! sk = Some s' ∧
              objs (mem w') !! c = Some (ObjConn C') ∧
              destructor_outcome d s s' C').
Proof.
  intros Hnew.
  destruct (tfw_connection_new_success _ _ _ _ _ _ Hnew)
    as (s & ty & rest & h & _ & Hs & _ & _ & Hh & ->).
  exists s. simpl.
  assert (Hwired : ∃ s0 C0,
    socks (wired (mem w) sk s c ty d) !! sk = Some s0 ∧
    objs (wired (mem w) sk s c ty d) !! c = Some (ObjConn C0) ∧
    destructor_outcome d s s0 C0).
  { eexists _, _. simpl. rewrite !lookup_insert_eq.
    split; [reflexivity|]. split; [reflexivity|].
    destruct d; simpl; done. }
  destruct Hwired as (s0 & C0 & H1 & H2 & H3).
  split; [done|]. split.
  - by exists h, (wired (mem w) sk s c ty d), s0, C0.
  - intros Hframe. destruct (hooks_lookup_registered _ _ _ Hh) as [j Hj].
    destruct (Hframe j h (wired (mem w) sk s c ty d) Hj) as [Hsk Hc].
    exists s0, C0. rewrite Hsk, Hc. done.
Qed.

(** Direction bits distribute over the OR of two tags. *)
Lemma direction_bits_lor (t p : Z) :
  direction_bits (Z.lor t p) = Z.lor (direction_bits t) (direction_bits p).
Proof. unfold direction_bits. apply Z.land_lor_distr_l. Qed.

(** C4 (amended). A call of [tfw_connection_new] that returns connection
    [c] creates it with the requested type when the user-data slot is empty,
    and otherwise with the requested type OR-ed with the whole pre-bound
    tag.  The direction bits of the connection type are those of the
    argument OR-ed with those of the pre-bound tag; they are exactly those
    of the argument when the pre-bound tag carries no direction bit.  The
    connection has that type when the call returns if the registered
    protocols leave its record alone in [conn_init]. *)
Theorem tfw_connection_new_type (sk : N) (type : Z) (d : option fnptr)
    (w w' : World) (c : N) :
  tfw_connection_new sk type d w = Ret (Some c) w' →
  ∃ s ty,
    socks (mem w) !! sk = Some s ∧
    (∃ h m0 C0, mem w' = conn_init h c m0 ∧
                objs m0 !! c = Some (ObjConn C0) ∧ TFW_CONN_TYPE C0 = ty) ∧
    (conn_init_leaves_alone w sk c →
     ∃ C', objs (mem w') !! c = Some (ObjConn C') ∧ TFW_CONN_TYPE C' = ty) ∧
    match sk_user_data s with
    | None => ty = type
    | Some p =>
      ∃ pt, proto_type_at (mem w) p = Some pt ∧
            ty = Z.lor type pt ∧
            direction_bits ty = Z.lor (direction_bits type) (direction_bits pt) ∧
            (direction_bits pt = 0 → direction_bits ty = direction_bits type)
    end.
Proof.
  intros Hnew.
  destruct (tfw_connection_new_success _ _ _ _ _ _ Hnew)
    as (s & ty & rest & h & _ & Hs & Hty & _ & Hh & ->).
  exists s, ty. simpl.
  split; [done|]. split; [|split].
  - eexists h, (wired (mem w) sk s c ty d), _. simpl.
    rewrite lookup_insert_eq. done.
  - intros Hframe. destruct (hooks_lookup_registered _ _ _ Hh) as [j Hj].
    destruct (Hframe j h (wired (mem w) sk s c ty d) Hj) as [_ Hc].
    rewrite Hc. simpl. rewrite lookup_insert_eq. by eexists.
  - unfold effective_type in Hty.
    destruct (sk_user_data s) as [p|]; [|congruence].
    destruct (proto_type_at (mem w) p) as [pt|]; simpl in Hty; [|done].
    injection Hty as <-. exists pt.
    split; [done|]. split; [done|].
    split; [apply direction_bits_lor|].
    intros Hz. rewrite direction_bits_lor, Hz. apply Z.lor_0_r.
Qed.

(** The node removed by [list_del] is gone from a list without
    repetition. *)
Lemma list_del_not_elem (c : N) (l : list N) :
  NoDup l → c ∉ list_del c l.
Proof.
  induction 1 as [|x l Hx Hnd IH]; simpl.
  - apply not_elem_of_nil.
  - destruct (N.eqb_spec x c) as [->|Hne]; [done|].
    rewrite not_elem_of_cons. split; [congruence|done].
Qed.

(** C1. [tfw_connection_close] on a live socket.  When the classifier
    vetoes the close, the call returns [-EPERM] and leaves the world as it
    found it.  When the classifier allows it and the socket carries a
    connection of a registered protocol, which [conn_destruct] leaves in
    place together with its peer and the socket, the call logs exactly one
    [conn_destruct] on that connection, takes the connection off the list of
    its peer (on which it is no longer found if the list had no
    repetition), releases its record, empties the user-data slot of the
    socket and returns 0. *)
Theorem tfw_connection_close_gate (sk : N) (w : World) (s : Sock) :
  socks (mem w) !! sk = Some s →
  (tfw_classify_conn_close (mem w) sk = TFW_BLOCK →
   tfw_connection_close sk w = Ret (- EPERM) w) ∧
  (tfw_classify_conn_close (mem w) sk ≠ TFW_BLOCK →
   ∀ c C h,
     sk_user_data s = Some c →
     objs (mem w) !! c = Some (ObjConn C) →
     hooks_lookup w (TFW_CONN_TYPE2IDX (TFW_CONN_TYPE C)) = Some h →
     let m1 := conn_destruct h c (mem w) in
     ∀ C1 p P s1,
       objs m1 !! c = Some (ObjConn C1) →
       peer C1 = Some p →
       peers m1 !! p = Some P →
       socks m1 !! sk = Some s1 →
       ∃ w', tfw_connection_close sk w = Ret 0 w' ∧
             trace w' = trace w ++ [EvConnDestruct c] ∧
             conn_list <$> peers (mem w') !! p
               = Some (list_del c (conn_list P)) ∧
             (NoDup (conn_list P) → c ∉ list_del c (conn_list P)) ∧
             objs (mem w') !! c = None ∧
             sk_user_data <$> socks (mem w') !! sk = Some None ∧
             mem w' = torn_down m1 sk s1 c p P ∧
             conn_cache w' = conn_cache w ∧
             conn_hooks w' = conn_hooks w).
Proof.
  intros Hs. split.
  - intros Hv. rewrite tfw_connection_close_unfold, Hs, Hv. reflexivity.
  - intros Hv c C h Hud HC Hh m1 C1 p P s1 HC1 Hp HP Hs1.
    rewrite tfw_connection_close_unfold, Hs.
    assert (Hnb : verdict_is_block (tfw_classify_conn_close (mem w) sk) = false)
      by (destruct (tfw_classify_conn_close (mem w) sk); done).
    rewrite Hnb, Hud. unfold proto_type_at. rewrite HC, Hh. simpl.
    fold m1. rewrite HC1, Hp, HP, Hs1.
    eexists. split; [reflexivity|]. simpl.
    rewrite !lookup_insert_eq, lookup_delete_eq.
    split; [done|]. split; [done|].
    split; [apply list_del_not_elem|done].
Qed.

(** C2 (amended). On a socket whose user-data slot is empty,
    [tfw_connection_close] never returns success: it returns [-EPERM] and
    leaves the world as it found it when the classifier vetoes the close,
    and otherwise faults on the null connection pointer. *)
Theorem tfw_connection_close_empty_slot (sk : N) (w : World) (s : Sock) :
  socks (mem w) !! sk = Some s →
  sk_user_data s = None →
  tfw_connection_close sk w =
    (if verdict_is_block (tfw_classify_conn_close (mem w) sk)
     then Ret (- EPERM) w else Oops) ∧
  ∀ w', tfw_connection_close sk w ≠ Ret 0 w'.
Proof.
  intros Hs Hud. rewrite tfw_connection_close_unfold, Hs, Hud.
  split; [reflexivity|].
  intros w'. destruct (verdict_is_block _); [|done].
  unfold EPERM. intros [= H].
Qed.

(** C3. [tfw_connection_put_skb_to_msg] on a connection.  With a message in
    flight, no allocation is made and the segment goes to the tail of that
    message's list; two segments put one after the other end up in that
    order.  Without one, [conn_msg_alloc] of the connection's protocol is
    called once: if it returns NULL, the call returns [-ENOMEM] and the
    connection has no message; if it returns a message, the connection
    holds it, the segment goes to the tail of its list, and the call
    returns 0.  No other message changes. *)
Theorem tfw_connection_put_skb_to_msg_contract (conn skb : N) (w : World)
    (C : TfwConnection) :
  objs (mem w) !! conn = Some (ObjConn C) →
  (∀ m X,
     msg C = Some m → msgs (mem w) !! m = Some X →
     (∃ w', tfw_connection_put_skb_to_msg conn skb w = Ret 0 w' ∧
            msgs (mem w') !! m = Some {| skb_list := skb_list X ++ [skb] |} ∧
            (∀ m', m' ≠ m → msgs (mem w') !! m' = msgs (mem w) !! m') ∧
            objs (mem w') = objs (mem w) ∧
            trace w' = trace w) ∧
     (∀ skb2, ∃ w1 w2,
        tfw_connection_put_skb_to_msg conn skb w = Ret 0 w1 ∧
        tfw_connection_put_skb_to_msg conn skb2 w1 = Ret 0 w2 ∧
        msgs (mem w2) !! m = Some {| skb_list := skb_list X ++ [skb; skb2] |})) ∧
  (∀ h r m1 C1,
     msg C = None →
     hooks_lookup w (TFW_CONN_TYPE2IDX (TFW_CONN_TYPE C)) = Some h →
     conn_msg_alloc h conn (mem w) = (r, m1) →
     objs m1 !! conn = Some (ObjConn C1) →
     match r with
     | None =>
       ∃ w', tfw_connection_put_skb_to_msg conn skb w = Ret (- ENOMEM) w' ∧
             trace w' = trace w ++ [EvConnMsgAlloc conn] ∧
             (∃ C', objs (mem w') !! conn = Some (ObjConn C') ∧ msg C' = None) ∧
             msgs (mem w') = msgs m1
     | Some m =>
       ∀ X, msgs m1 !! m = Some X →
       ∃ w', tfw_connection_put_skb_to_msg conn skb w = Ret 0 w' ∧
             trace w' = trace w ++ [EvConnMsgAlloc conn] ∧
             (∃ C', objs (mem w') !! conn = Some (ObjConn C') ∧
                    msg C' = Some m) ∧
             msgs (mem w') !! m = Some {| skb_list := skb_list X ++ [skb] |} ∧
             (∀ m', m' ≠ m → msgs (mem w') !! m' = msgs m1 !! m')
     end).
Proof.
  intros HC. split.
  - intros m X Hm HX.
    assert (Hput : tfw_connection_put_skb_to_msg conn skb w =
      Ret 0 (next_world w
        (set_msgs <[m := {| skb_list := skb_list X ++ [skb] |}]> (mem w)) [])).
    { rewrite tfw_connection_put_skb_to_msg_unfold, HC, Hm, HX. reflexivity. }
    split.
    + eexists. split; [exact Hput|]. simpl.
      rewrite lookup_insert_eq, app_nil_r.
      repeat split; try done.
      intros m' Hne. by rewrite lookup_insert_ne.
    + intros skb2. eexists _, _. split; [exact Hput|].
      rewrite tfw_connection_put_skb_to_msg_unfold. simpl.
      rewrite HC, Hm, lookup_insert_eq. split; [reflexivity|]. simpl.
      rewrite lookup_insert_eq. simpl. by rewrite <- app_assoc.
  - intros h r m1 C1 Hm Hh Halloc HC1.
    destruct r as [m|].
    + intros X HX. eexists. split.
      { rewrite tfw_connection_put_skb_to_msg_unfold, HC, Hm, Hh, Halloc, HC1, HX.
        reflexivity. }
      simpl. rewrite !lookup_insert_eq.
      split; [done|]. split; [by eexists|]. split; [done|].
      intros m' Hne. by rewrite lookup_insert_ne.
    + eexists. split.
      { rewrite tfw_connection_put_skb_to_msg_unfold, HC, Hm, Hh, Halloc, HC1.
        reflexivity. }
      simpl. rewrite lookup_insert_eq.
      split; [done|]. split; [by eexists|done].
Qed.

(** The passive-open upcall after a successful creation: the client
    registry is called once, with the zero-filled address whatever the
    remote address of the socket; if it fails, [ss_close] is called on the
    socket and the upcall returns [-EINVAL]; if it succeeds, the upcall
    returns 0. *)
Lemma tfw_connection_new_upcall_registration (sk : N) (w w1 : World) (c : N) :
  tfw_classify_conn_estab (mem w) sk ≠ TFW_BLOCK →
  tfw_connection_new sk Conn_Clnt (Some tfw_client_put) w = Ret (Some c) w1 →
  ∃ r w', tfw_connection_new_upcall sk w = Ret r w' ∧
    match tfw_create_client c TfwAddr_zero (mem w1) with
    | (None, m2) =>
      r = - EINVAL ∧ mem w' = m2 ∧
      trace w' = trace w1 ++ [EvCreateClient c TfwAddr_zero; EvSsClose sk]
    | (Some _, m2) =>
      r = 0 ∧ mem w' = m2 ∧
      trace w' = trace w1 ++ [EvCreateClient c TfwAddr_zero]
    end.
Proof.
  intros Hv Hnew. rewrite tfw_connection_new_upcall_unfold, Hnew.
  assert (Hnb : verdict_is_block (tfw_classify_conn_estab (mem w) sk) = false)
    by (destruct (tfw_classify_conn_estab (mem w) sk); done).
  rewrite Hnb.
  destruct (tfw_create_client c TfwAddr_zero (mem w1)) as [[cl|] m2];
    eexists _, _; (split; [reflexivity|]); done.
Qed.

(** *** The binding between a socket and its connection *)

Lemma same_binding_refl (m : Mem) : same_binding m m.
Proof. by split. Qed.

Lemma same_binding_trans (m1 m2 m3 : Mem) :
  same_binding m1 m2 → same_binding m2 m3 → same_binding m1 m3.
Proof.
  intros [H1 H2] [H3 H4]. split; intros x.
  - by rewrite H3, H1.
  - by rewrite H4, H2.
Qed.

Lemma same_binding_socket (m m' : Mem) (sk : N) (s : Sock) :
  same_binding m m' → socks m !! sk = Some s →
  ∃ s', socks m' !! sk = Some s' ∧ sk_user_data s' = sk_user_data s.
Proof.
  intros [H _] Hs. specialize (H sk). rewrite Hs in H. simpl in H.
  destruct (socks m' !! sk) as [s'|]; simplify_eq/=. by exists s'.
Qed.

Lemma same_binding_conn (m m' : Mem) (c : N) (C : TfwConnection) :
  same_binding m m' → objs m !! c = Some (ObjConn C) →
  ∃ C', objs m' !! c = Some (ObjConn C') ∧ sock C' = sock C.
Proof.
  intros [_ H] HC. specialize (H c). rewrite HC in H. simpl in H.
  destruct (objs m' !! c) as [[P'|C']|]; simplify_eq/=. by exists C'.
Qed.

Lemma same_binding_conn_back (m m' : Mem) (c : N) (C' : TfwConnection) :
  same_binding m m' → objs m' !! c = Some (ObjConn C') →
  ∃ C, objs m !! c = Some (ObjConn C) ∧ sock C = sock C'.
Proof.
  intros [_ H] HC. specialize (H c). rewrite HC in H. simpl in H.
  destruct (objs m !! c) as [[P|C]|]; simplify_eq/=. by exists C.
Qed.

Lemma bound_same_binding (m m' : Mem) (sk c : N) :
  same_binding m m' → bound m sk c → bound m' sk c.
Proof.
  intros Hsb [(s & Hs & Hud) (C & HC & Hsock)]. split.
  - destruct (same_binding_socket _ _ _ _ Hsb Hs) as (s' & Hs' & Hud').
    exists s'. split; [done|congruence].
  - destruct (same_binding_conn _ _ _ _ Hsb HC) as (C' & HC' & Hsock').
    exists C'. split; [done|congruence].
Qed.

Lemma binding_invariant_same_binding (m m' : Mem) :
  same_binding m m' → binding_invariant m → binding_invariant m'.
Proof.
  intros Hsb Hinv c C' HC'.
  destruct (same_binding_conn_back _ _ _ _ Hsb HC') as (C & HC & _).
  destruct (Hinv c C HC) as [sk Hb]. exists sk.
  by apply (bound_same_binding m).
Qed.

Lemma same_binding_set_msgs (m : Mem) (f : gmap N TfwMsg → gmap N TfwMsg) :
  same_binding m (set_msgs f m).
Proof. by split. Qed.

Lemma same_binding_set_msg (m : Mem) (conn : N) (C : TfwConnection)
    (r : option N) :
  objs m !! conn = Some (ObjConn C) →
  same_binding m (set_objs <[conn := ObjConn (set_msg r C)]> m).
Proof.
  intros HC. split; [done|]. intros a. simpl.
  destruct (decide (conn = a)) as [<-|Hne].
  - by rewrite lookup_insert_eq, HC.
  - by rewrite lookup_insert_ne.
Qed.

Lemma binding_invariant_wired (m : Mem) (sk : N) (s : Sock) (c : N)
    (ty : Z) (d : option fnptr) :
  binding_invariant m → unbound m sk → socks m !! sk = Some s →
  binding_invariant (wired m sk s c ty d).
Proof.
  intros Hinv Hunb Hs c2 C2 HC2.
  destruct (decide (c2 = c)) as [->|Hne].
  { exists sk. apply wired_bound. }
  simpl in HC2. rewrite lookup_insert_ne in HC2 by done.
  destruct (Hinv c2 C2 HC2) as [sk2 [(s2 & Hs2 & Hud2) Hback]].
  exists sk2.
  assert (sk2 ≠ sk).
  { intros ->. by apply (Hunb s2 c2 C2). }
  split; simpl.
  - exists s2. by rewrite lookup_insert_ne.
  - by rewrite lookup_insert_ne.
Qed.

Lemma binding_invariant_torn_down (m1 : Mem) (sk : N) (s1 : Sock) (c p : N)
    (P : TfwPeer) :
  binding_invariant m1 → socks m1 !! sk = Some s1 →
  sk_user_data s1 = Some c →
  binding_invariant (torn_down m1 sk s1 c p P).
Proof.
  intros Hinv Hs1 Hud c2 C2 HC2. simpl in HC2.
  destruct (decide (c = c2)) as [->|Hne].
  { by rewrite lookup_delete_eq in HC2. }
  rewrite lookup_delete_ne in HC2 by done.
  destruct (Hinv c2 C2 HC2) as [sk2 [(s2 & Hs2 & Hud2) Hback]].
  exists sk2.
  assert (sk2 ≠ sk).
  { intros ->. congruence. }
  split; simpl.
  - exists s2. by rewrite lookup_insert_ne.
  - by rewrite lookup_delete_ne.
Qed.

(** The ways [tfw_connection_close] returns. *)
Lemma tfw_connection_close_returns (sk : N) (w w' : World) (r : Z) :
  tfw_connection_close sk w = Ret r w' →
  (r = - EPERM ∧ w' = w) ∨
  (r = 0 ∧
   ∃ s c h C1 p P s1,
     socks (mem w) !! sk = Some s ∧ sk_user_data s = Some c ∧
     (∃ j, conn_hooks w !! j = Some (Some h)) ∧
     let m1 := conn_destruct h c (mem w) in
     objs m1 !! c = Some (ObjConn C1) ∧ peer C1 = Some p ∧
     peers m1 !! p = Some P ∧ socks m1 !! sk = Some s1 ∧
     w' = next_world w (torn_down m1 sk s1 c p P) [EvConnDestruct c]).
Proof.
  rewrite tfw_connection_close_unfold.
  destruct (socks (mem w) !! sk) as [s|] eqn:Hs; [|done].
  destruct (verdict_is_block _).
  { intros [= <- <-]. by left. }
  destruct (sk_user_data s) as [c|] eqn:Hud; [|done].
  destruct (proto_type_at (mem w) c) as [ty|]; [|done].
  destruct (hooks_lookup w (TFW_CONN_TYPE2IDX ty)) as [h|] eqn:Hh; [|done].
  simpl.
  destruct (objs (conn_destruct h c (mem w)) !! c) as [[P1|C1]|] eqn:HC1;
    try done.
  destruct (peer C1) as [p|] eqn:Hp; [|done].
  destruct (peers (conn_destruct h c (mem w)) !! p) as [P|] eqn:HP; [|done].
  destruct (socks (conn_destruct h c (mem w)) !! sk) as [s1|] eqn:Hs1; [|done].
  intros [= <- <-]. right. split; [done|].
  exists s, c, h, C1, p, P, s1.
  split; [done|]. split; [done|].
  split; [by apply (hooks_lookup_registered _ _ _ Hh)|].
  simpl. done.
Qed.

Lemma world_ok_hooks_lookup (w : World) (i : Z) (h : TfwConnHooks) :
  world_ok w → hooks_lookup w i = Some h → hooks_keep_binding h.
Proof.
  intros [_ Hh] Hl. destruct (hooks_lookup_registered _ _ _ Hl) as [j Hj].
  by apply (Hh j).
Qed.

(** [tfw_connection_new] keeps the invariant when the socket carries no
    connection yet, and binds the connection it returns. *)
Lemma world_ok_new (sk : N) (type : Z) (d : option fnptr) (w w' : World)
    (r : option N) :
  world_ok w →
  tfw_connection_new sk type d w = Ret r w' →
  (∀ c, r = Some c → bound (mem w') sk c) ∧
  (unbound (mem w) sk → world_ok w').
Proof.
  intros Hok Hnew. destruct r as [c|].
  - destruct (tfw_connection_new_success _ _ _ _ _ _ Hnew)
      as (s & ty & rest & h & _ & Hs & _ & _ & Hh & ->).
    destruct (world_ok_hooks_lookup _ _ _ Hok Hh c (wired (mem w) sk s c ty d))
      as (Hinit & _ & _).
    simpl. split.
    + intros c' [= <-]. apply (bound_same_binding _ _ _ _ Hinit), wired_bound.
    + intros Hunb. destruct Hok as [Hinv Hhooks]. split; simpl; [|done].
      apply (binding_invariant_same_binding _ _ Hinit).
      by apply binding_invariant_wired.
  - split; [done|]. intros _.
    rewrite tfw_connection_new_unfold in Hnew.
    destruct (Z.land type (Z.lor Conn_Clnt Conn_Srv) =? 0); [done|].
    destruct (socks (mem w) !! sk) as [s|]; [|done].
    destruct (effective_type (mem w) s type) as [ty|]; [|done].
    destruct (conn_cache w) as [|[a|] rest].
    + by injection Hnew as <-.
    + by destruct (hooks_lookup w (TFW_CONN_TYPE2IDX ty)).
    + injection Hnew as <-. exact Hok.
Qed.

Lemma world_ok_next_world (w : World) (m : Mem) (evs : list Event) :
  world_ok w → same_binding (mem w) m → world_ok (next_world w m evs).
Proof.
  intros [Hinv Hh] Hsb. split; simpl; [|done].
  by apply (binding_invariant_same_binding (mem w)).
Qed.

(** [tfw_connection_put_skb_to_msg] does not touch the binding. *)
Lemma put_skb_to_msg_same_binding (conn skb : N) (w w' : World) (r : Z) :
  world_ok w →
  tfw_connection_put_skb_to_msg conn skb w = Ret r w' →
  same_binding (mem w) (mem w') ∧ conn_hooks w' = conn_hooks w.
Proof.
  intros Hok. rewrite tfw_connection_put_skb_to_msg_unfold.
  destruct (objs (mem w) !! conn) as [[P0|C]|] eqn:HC; try done.
  destruct (msg C) as [m|].
  - destruct (msgs (mem w) !! m) as [X|]; [|done].
    intros [= <- <-]. split; [|done]. apply same_binding_set_msgs.
  - destruct (hooks_lookup w _) as [h|] eqn:Hh; [|done].
    destruct (world_ok_hooks_lookup _ _ _ Hok Hh conn (mem w))
      as (_ & _ & Halloc).
    destruct (conn_msg_alloc h conn (mem w)) as [r0 m1]. simpl in Halloc.
    destruct (objs m1 !! conn) as [[P1|C1]|] eqn:HC1; try done.
    assert (Hset : same_binding (mem w)
                     (set_objs <[conn := ObjConn (set_msg r0 C1)]> m1)).
    { apply (same_binding_trans _ m1); [done|]. by apply same_binding_set_msg. }
    destruct r0 as [m|].
    + destruct (msgs m1 !! m) as [X|]; [|done].
      intros [= <- <-]. split; [|done].
      exact (same_binding_trans _ _ _ Hset (same_binding_set_msgs _ _)).
    + intros [= <- <-]. by split.
Qed.

(** [tfw_connection_postpone_skb] does not touch the binding. *)
Lemma postpone_skb_same_binding (conn skb : N) (w w' : World) (r : Z) :
  tfw_connection_postpone_skb conn skb w = Ret r w' →
  same_binding (mem w) (mem w') ∧ conn_hooks w' = conn_hooks w.
Proof.
  rewrite tfw_connection_postpone_skb_unfold.
  destruct (objs (mem w) !! conn) as [[P0|C]|]; try done.
  destruct (msg C) as [m|]; [|done].
  destruct (msgs (mem w) !! m) as [X|]; [|done].
  intros [= <- <-]. split; [|done]. apply same_binding_set_msgs.
Qed.

(** C9. The binding between a connection and its socket over the life of
    the connection, in a module state where every connection record is
    bound both ways to its socket and the registered protocols and the
    client registry do not interfere with the binding.
    Creation: the connection returned by [tfw_connection_new] and its socket
    point to each other; on a socket that carries no connection yet, the
    call and the passive-open upcall keep every connection bound.
    Life: the segment upcalls, a vetoed close and a hook registration leave
    every binding as it is.
    Teardown: a close that returns 0 empties the user-data slot of the
    socket and releases the connection the slot pointed to, and keeps the
    other connections bound. *)
Theorem connection_binding_lifecycle (w : World) :
  world_ok w →
  (∀ c a m, same_binding m (tfw_create_client c a m).2) →
  (∀ sk type d c w',
     tfw_connection_new sk type d w = Ret (Some c) w' →
     bound (mem w') sk c) ∧
  (∀ sk type d r w',
     unbound (mem w) sk →
     tfw_connection_new sk type d w = Ret r w' → world_ok w') ∧
  (∀ sk r w',
     unbound (mem w) sk →
     tfw_connection_new_upcall sk w = Ret r w' →
     world_ok w' ∧ (r = 0 → ∃ c, bound (mem w') sk c)) ∧
  (∀ conn skb r w',
     tfw_connection_put_skb_to_msg conn skb w = Ret r w' →
     world_ok w' ∧ ∀ sk c, bound (mem w) sk c → bound (mem w') sk c) ∧
  (∀ conn skb r w',
     tfw_connection_postpone_skb conn skb w = Ret r w' →
     world_ok w' ∧ ∀ sk c, bound (mem w) sk c → bound (mem w') sk c) ∧
  (∀ hooks type w',
     (∀ h, hooks = Some h → hooks_keep_binding h) →
     tfw_connection_hooks_register hooks type w = Ret tt w' →
     world_ok w' ∧ mem w' = mem w) ∧
  (∀ sk r w',
     tfw_connection_close sk w = Ret r w' →
     world_ok w' ∧
     (r ≠ 0 → w' = w) ∧
     (r = 0 →
      ∃ s c s',
        socks (mem w) !! sk = Some s ∧ sk_user_data s = Some c ∧
        socks (mem w') !! sk = Some s' ∧ sk_user_data s' = None ∧
        objs (mem w') !! c = None ∧
        ∀ sk2 c2, c2 ≠ c → bound (mem w) sk2 c2 → bound (mem w') sk2 c2)).
Proof.
  intros Hok Hclient.
  split; [|split; [|split; [|split; [|split; [|split]]]]].
  - intros sk type d c w' Hnew.
    by apply (world_ok_new _ _ _ _ _ _ Hok Hnew).
  - intros sk type d r w' Hunb Hnew.
    by apply (world_ok_new _ _ _ _ _ _ Hok Hnew).
  - intros sk r w' Hunb. rewrite tfw_connection_new_upcall_unfold.
    destruct (verdict_is_block _).
    { intros [= <- <-]. split; [done|]. unfold EPERM. lia. }
    destruct (tfw_connection_new sk Conn_Clnt (Some tfw_client_put) w)
      as [[c|] w1| |] eqn:Hnew; try done.
    + destruct (world_ok_new _ _ _ _ _ _ Hok Hnew) as [Hb Hok1].
      specialize (Hb c eq_refl). specialize (Hok1 Hunb).
      pose proof (Hclient c TfwAddr_zero (mem w1)) as Hsb.
      destruct (tfw_create_client c TfwAddr_zero (mem w1)) as [[cl|] m2];
        simpl in Hsb; intros [= <- <-].
      * split; [by apply world_ok_next_world|].
        intros _. exists c. simpl. by apply (bound_same_binding (mem w1)).
      * split; [by apply world_ok_next_world|]. unfold EINVAL. lia.
    + destruct (world_ok_new _ _ _ _ _ _ Hok Hnew) as [_ Hok1].
      intros [= <- <-]. split.
      * apply world_ok_next_world; [by apply Hok1|apply same_binding_refl].
      * unfold ENOMEM. lia.
  - intros conn skb r w' Hput.
    destruct (put_skb_to_msg_same_binding _ _ _ _ _ Hok Hput) as [Hsb Hhk].
    destruct Hok as [Hinv Hhooks]. split.
    + split; [by apply (binding_invariant_same_binding (mem w))|].
      by rewrite Hhk.
    + intros sk c. by apply bound_same_binding.
  - intros conn skb r w' Hput.
    destruct (postpone_skb_same_binding _ _ _ _ _ Hput) as [Hsb Hhk].
    destruct Hok as [Hinv Hhooks]. split.
    + split; [by apply (binding_invariant_same_binding (mem w))|].
      by rewrite Hhk.
    + intros sk c. by apply bound_same_binding.
  - intros hooks type w' Hnewhooks. unfold tfw_connection_hooks_register.
    destruct (_ <=? _); [done|].
    destruct (conn_hooks w !! _) as [[h0|]|] eqn:Hslot; try done.
    intros [= <-]. simpl. split; [|done].
    destruct Hok as [Hinv Hhooks]. split; simpl; [done|].
    intros i h Hi.
    destruct (decide (i = Z.to_nat (to_unsigned (TFW_CONN_TYPE2IDX type))))
      as [->|Hne].
    + rewrite list_lookup_insert_eq in Hi
        by (by apply lookup_lt_Some in Hslot).
      injection Hi as Hi. by apply Hnewhooks.
    + rewrite list_lookup_insert_ne in Hi by done. by apply (Hhooks i).
  - intros sk r w' Hclose.
    destruct (tfw_connection_close_returns _ _ _ _ Hclose)
      as [[-> ->]|[-> Hdone]].
    { split; [done|]. split; [done|]. unfold EPERM. lia. }
    destruct Hdone as (s & c & h & C1 & p & P & s1 & Hs & Hud & [j Hj] & Hrest).
    simpl in Hrest. destruct Hrest as (HC1 & Hp & HP & Hs1 & ->).
    destruct Hok as [Hinv Hhooks].
    destruct (Hhooks j h Hj c (mem w)) as (_ & Hdes & _).
    destruct (same_binding_socket _ _ _ _ Hdes Hs) as (s1' & Hs1' & Hud1).
    assert (s1' = s1) as -> by congruence.
    assert (Hud1' : sk_user_data s1 = Some c) by congruence.
    split; [|split; [done|]].
    + split; simpl; [|done].
      apply binding_invariant_torn_down; try done.
      by apply (binding_invariant_same_binding (mem w)).
    + intros _. exists s, c, (set_sk_user_data None s1). simpl.
      rewrite lookup_insert_eq, lookup_delete_eq.
      do 5 (split; [done|]).
      intros sk2 c2 Hne Hb.
      apply (bound_same_binding _ _ _ _ Hdes) in Hb.
      destruct Hb as [(s2 & Hs2 & Hud2) (C2 & HC2 & Hsock2)].
      assert (sk2 ≠ sk) by (intros ->; congruence).
      split; simpl.
      * exists s2. by rewrite lookup_insert_ne.
      * exists C2. by rewrite lookup_delete_ne.
Qed.

End Properties.

(** ** Further properties of connection.c *)

Section MoreProperties.
Context {E : Externs} {L : SockLayer}.

(** X1. A type tag without a direction bit trips the assertion of
    [tfw_connection_new] before anything else is looked at: the call dies
    whatever the socket pointer, the cache and the hook table are. *)
Theorem tfw_connection_new_requires_direction (sk : N) (type : Z)
    (d : option fnptr) (w : World) :
  direction_bits type = 0 →
  tfw_connection_new sk type d w = Bug.
Proof.
  unfold direction_bits. intros Hdir.
  rewrite tfw_connection_new_unfold.
  apply Z.eqb_eq in Hdir. by rewrite Hdir.
Qed.

(** The direction bits of a tag survive the OR with another tag. *)
Lemma direction_bits_lor_nonzero (t p : Z) :
  direction_bits t ≠ 0 → direction_bits (Z.lor t p) ≠ 0.
Proof.
  intros Ht. rewrite direction_bits_lor. intros H.
  apply Z.lor_eq_0_iff in H. by destruct H.
Qed.

(** X2. A connection returned by [tfw_connection_new] is well formed: its
    type carries a direction bit, its protocol index lies inside the hook
    table at an occupied slot, [conn_init] of that protocol is the one call
    logged, and exactly one object was taken from the cache. *)
Theorem tfw_connection_new_wellformed (sk : N) (type : Z) (d : option fnptr)
    (w w' : World) (c : N) :
  tfw_connection_new sk type d w = Ret (Some c) w' →
  ∃ s ty h,
    socks (mem w) !! sk = Some s ∧
    effective_type (mem w) s type = Some ty ∧
    direction_bits ty ≠ 0 ∧
    0 <= TFW_CONN_TYPE2IDX ty ∧
    (Z.to_nat (TFW_CONN_TYPE2IDX ty) < length (conn_hooks w))%nat ∧
    conn_hooks w !! Z.to_nat (TFW_CONN_TYPE2IDX ty) = Some (Some h) ∧
    mem w' = conn_init h c (wired (mem w) sk s c ty d) ∧
    trace w' = trace w ++ [EvConnInit c] ∧
    conn_cache w = Some c :: conn_cache w' ∧
    conn_hooks w' = conn_hooks w.
Proof.
  intros Hnew.
  destruct (tfw_connection_new_success _ _ _ _ _ _ Hnew)
    as (s & ty & rest & h & Hdir & Hs & Hty & Hcache & Hh & ->).
  exists s, ty, h. simpl.
  assert (Hdirty : direction_bits ty ≠ 0).
  { unfold effective_type in Hty.
    destruct (sk_user_data s) as [p|].
    - destruct (proto_type_at (mem w) p) as [pt|]; simpl in Hty; [|done].
      injection Hty as <-. by apply direction_bits_lor_nonzero.
    - by injection Hty as <-. }
  unfold hooks_lookup in Hh.
  destruct (TFW_CONN_TYPE2IDX ty <? 0) eqn:Hneg; [done|].
  apply Z.ltb_ge in Hneg.
  destruct (conn_hooks w !! Z.to_nat (TFW_CONN_TYPE2IDX ty))
    as [[h'|]|] eqn:Hslot; try done.
  injection Hh as ->.
  do 4 (split; [done|]).
  split; [by apply lookup_lt_Some in Hslot|].
  done.
Qed.



(** [tfw_connection_alloc] in closed form. *)
Lemma tfw_connection_alloc_unfold (type : Z) (w : World) :
  tfw_connection_alloc type w =
  match conn_cache w with
  | Some a :: rest =>
    Ret (Some a)
        {| mem := set_objs
                    <[a := ObjConn {| proto := {| type := type |};
                                      msg_queue := []; msg := None;
                                      peer := None; sock := None;
                                      conn_sk_destruct := None |}]> (mem w);
           conn_cache := rest; conn_hooks := conn_hooks w;
           trace := trace w |}
  | None :: rest =>
    Ret None {| mem := mem w; conn_cache := rest;
                conn_hooks := conn_hooks w; trace := trace w |}
  | [] => Ret None w
  end.
Proof.
  unfold tfw_connection_alloc, kmem_cache_alloc, load_conn, store_conn,
    mbind, mret, M_bind, M_ret.
  destruct w as [[sks obs mgs prs] cache hooks tr]; simpl.
  destruct cache as [|[a|] rest]; simpl; try reflexivity.
  rewrite !lookup_insert_eq. simpl. rewrite lookup_insert_eq. simpl.
  by rewrite insert_insert_eq.
Qed.

(** X5. A connection that [tfw_connection_alloc] produces is zero-filled
    apart from its type: it has the requested type, no message in flight,
    an empty message queue, no peer, no socket and no chained destructor;
    nothing else in memory changes and no call leaves the module. *)
Theorem tfw_connection_alloc_zeroed (type : Z) (w : World) (a : N)
    (rest : list (option N)) :
  conn_cache w = Some a :: rest →
  ∃ w' C,
    tfw_connection_alloc type w = Ret (Some a) w' ∧
    objs (mem w') !! a = Some (ObjConn C) ∧
    TFW_CONN_TYPE C = type ∧ msg C = None ∧ msg_queue C = [] ∧
    peer C = None ∧ sock C = None ∧ conn_sk_destruct C = None ∧
    (∀ b, b ≠ a → objs (mem w') !! b = objs (mem w) !! b) ∧
    socks (mem w') = socks (mem w) ∧ msgs (mem w') = msgs (mem w) ∧
    peers (mem w') = peers (mem w) ∧
    conn_cache w' = rest ∧ trace w' = trace w.
Proof.
  intros Hcache. rewrite tfw_connection_alloc_unfold, Hcache.
  eexists _, _. split; [reflexivity|]. simpl. rewrite lookup_insert_eq.
  split; [reflexivity|]. simpl.
  do 6 (split; [done|]).
  split; [intros b Hne; by rewrite lookup_insert_ne|done].
Qed.

(** X6. Allocation followed by release is a round trip on memory: when the
    cache hands out an address that holds no object, allocating a
    connection there and freeing it leaves memory exactly as it was. *)
Theorem tfw_connection_alloc_free (type : Z) (w : World) (a : N)
    (rest : list (option N)) :
  conn_cache w = Some a :: rest →
  objs (mem w) !! a = None →
  ∃ w1 w2,
    tfw_connection_alloc type w = Ret (Some a) w1 ∧
    tfw_connection_free a w1 = Ret tt w2 ∧
    mem w2 = mem w ∧ trace w2 = trace w ∧ conn_hooks w2 = conn_hooks w.
Proof.
  intros Hcache Hfresh. rewrite tfw_connection_alloc_unfold, Hcache.
  eexists _, _. split; [reflexivity|].
  unfold tfw_connection_free, kmem_cache_free. simpl.
  rewrite lookup_insert_eq. split; [reflexivity|]. simpl.
  destruct w as [[sks obs mgs prs] cache hooks tr]; simpl in *.
  by rewrite delete_insert_id.
Qed.

(** A call of [tfw_connection_new] that returns NULL has changed neither
    memory nor the log nor the hook table. *)
Lemma tfw_connection_new_null (sk : N) (type : Z) (d : option fnptr)
    (w w' : World) :
  tfw_connection_new sk type d w = Ret None w' →
  mem w' = mem w ∧ trace w' = trace w ∧ conn_hooks w' = conn_hooks w.
Proof.
  rewrite tfw_connection_new_unfold.
  destruct (Z.land type (Z.lor Conn_Clnt Conn_Srv) =? 0); [done|].
  destruct (socks (mem w) !! sk) as [s|]; [|done].
  destruct (effective_type (mem w) s type) as [ty|]; [|done].
  destruct (conn_cache w) as [|[a|] rest].
  - by intros [= <-].
  - by destruct (hooks_lookup w (TFW_CONN_TYPE2IDX ty)).
  - by intros [= <-].
Qed.

Lemma verdict_is_block_false (v : verdict) :
  verdict_is_block v = false ↔ v ≠ TFW_BLOCK.
Proof. destruct v; simpl; split; congruence. Qed.

Lemma verdict_is_block_true (v : verdict) :
  verdict_is_block v = true ↔ v = TFW_BLOCK.
Proof. destruct v; simpl; split; congruence. Qed.

(** Two different return codes are never equal. *)
Ltac wrong_code :=
  let H := fresh in
  intros H; exfalso; cbv [EPERM ENOMEM EINVAL Z.opp] in H; congruence.

(** X7. Passive open under memory pressure: when the classifier lets the
    connection in and the cache has no object, the upcall returns
    [-ENOMEM]; memory is what it was, and [ss_close] on the socket is the
    one call made. *)
Theorem tfw_connection_new_upcall_alloc_failure (sk : N) (w : World)
    (s : Sock) (ty : Z) :
  direction_bits Conn_Clnt ≠ 0 →
  tfw_classify_conn_estab (mem w) sk ≠ TFW_BLOCK →
  socks (mem w) !! sk = Some s →
  effective_type (mem w) s Conn_Clnt = Some ty →
  (∀ a, head (conn_cache w) ≠ Some (Some a)) →
  ∃ w', tfw_connection_new_upcall sk w = Ret (- ENOMEM) w' ∧
        mem w' = mem w ∧
        trace w' = trace w ++ [EvSsClose sk] ∧
        conn_hooks w' = conn_hooks w.
Proof.
  intros Hdir Hv Hs Hty Hfail.
  rewrite tfw_connection_new_upcall_unfold.
  apply verdict_is_block_false in Hv. rewrite Hv.
  rewrite tfw_connection_new_unfold.
  unfold direction_bits in Hdir. apply Z.eqb_neq in Hdir.
  rewrite Hdir, Hs, Hty.
  destruct (conn_cache w) as [|[a|] rest] eqn:Hcache; simpl in Hfail.
  - eexists. split; [reflexivity|]. done.
  - by destruct (Hfail a).
  - eexists. split; [reflexivity|]. done.
Qed.

(** X8. The calls and results of the passive-open upcall.  When it
    returns, it has returned [-EPERM] on a veto, having done nothing;
    [-ENOMEM] after the single call [ss_close]; [-EINVAL] after
    [conn_init], the client registry and [ss_close], in that order; or 0
    after [conn_init] and the client registry.  It returns nothing else,
    and on every failure past the classifier [ss_close] is its last call. *)
Theorem tfw_connection_new_upcall_protocol (sk : N) (w w' : World) (r : Z) :
  tfw_connection_new_upcall sk w = Ret r w' →
  (r = - EPERM ∧ tfw_classify_conn_estab (mem w) sk = TFW_BLOCK ∧ w' = w) ∨
  (tfw_classify_conn_estab (mem w) sk ≠ TFW_BLOCK ∧
   ((r = - ENOMEM ∧ mem w' = mem w ∧ trace w' = trace w ++ [EvSsClose sk]) ∨
    (∃ c, r = - EINVAL ∧
          trace w' = trace w ++ [EvConnInit c;
                                 EvCreateClient c TfwAddr_zero;
                                 EvSsClose sk]) ∨
    (∃ c, r = 0 ∧
          trace w' = trace w ++ [EvConnInit c;
                                 EvCreateClient c TfwAddr_zero]))).
Proof.
  rewrite tfw_connection_new_upcall_unfold.
  destruct (verdict_is_block _) eqn:Hv.
  { apply verdict_is_block_true in Hv. intros [= <- <-]. by left. }
  apply verdict_is_block_false in Hv.
  destruct (tfw_connection_new sk Conn_Clnt (Some tfw_client_put) w)
    as [[c|] w1| |] eqn:Hnew; try done.
  - destruct (tfw_connection_new_success _ _ _ _ _ _ Hnew)
      as (s & ty & rest & h & _ & _ & _ & _ & _ & Hw1).
    assert (Htr : trace w1 = trace w ++ [EvConnInit c]) by (by subst w1).
    destruct (tfw_create_client c TfwAddr_zero (mem w1)) as [[cl|] m2];
      intros [= <- <-]; right; (split; [done|]); right; simpl;
      rewrite Htr, <- app_assoc; simpl.
    + right. by exists c.
    + left. by exists c.
  - destruct (tfw_connection_new_null _ _ _ _ _ Hnew) as (Hm & Htr & _).
    intros [= <- <-]. right. split; [done|]. left. simpl.
    by rewrite Htr.
Qed.

(** X9. The upcall does not undo the creation when the client registry
    fails: with protocols and a registry that do not interfere with the
    binding, a passive open that returns [-EINVAL] leaves the connection
    allocated and bound to the socket; the teardown is left to the
    [ss_close] it has called. *)
Theorem tfw_connection_new_upcall_einval_keeps_binding (sk : N)
    (w w' : World) :
  (∀ i h, conn_hooks w !! i = Some (Some h) → hooks_keep_binding h) →
  (∀ c a m, same_binding m (tfw_create_client c a m).2) →
  tfw_connection_new_upcall sk w = Ret (- EINVAL) w' →
  ∃ c, bound (mem w') sk c ∧ last (trace w') = Some (EvSsClose sk).
Proof.
  intros Hhooks Hclient. rewrite tfw_connection_new_upcall_unfold.
  destruct (verdict_is_block _); [wrong_code|].
  destruct (tfw_connection_new sk Conn_Clnt (Some tfw_client_put) w)
    as [[c|] w1| |] eqn:Hnew; try done.
  - destruct (tfw_connection_new_success _ _ _ _ _ _ Hnew)
      as (s & ty & rest & h & _ & _ & _ & _ & Hh & Hw1).
    destruct (hooks_lookup_registered _ _ _ Hh) as [j Hj].
    destruct (Hhooks j h Hj c (wired (mem w) sk s c ty (Some tfw_client_put)))
      as (Hinit & _ & _).
    assert (Hb : bound (mem w1) sk c).
    { subst w1. simpl.
      apply (bound_same_binding _ _ _ _ Hinit), wired_bound. }
    pose proof (Hclient c TfwAddr_zero (mem w1)) as Hsb.
    destruct (tfw_create_client c TfwAddr_zero (mem w1)) as [[cl|] m2];
      simpl in Hsb.
    + wrong_code.
    + intros [= <-]. exists c. simpl. split.
      * by apply (bound_same_binding (mem w1)).
      * by rewrite last_app.
Qed.


(** X11. The results of [tfw_connection_close].  When it returns, it has
    returned [-EPERM] exactly on a veto of the classifier, with the world
    untouched, or 0 after exactly one call, [conn_destruct] on the
    connection found in the user-data slot; it consumes nothing from the
    cache and leaves the hook table alone. *)
Theorem tfw_connection_close_results (sk : N) (w w' : World) (r : Z) :
  tfw_connection_close sk w = Ret r w' →
  (r = - EPERM ∧ tfw_classify_conn_close (mem w) sk = TFW_BLOCK ∧ w' = w) ∨
  (r = 0 ∧ tfw_classify_conn_close (mem w) sk ≠ TFW_BLOCK ∧
   ∃ s c, socks (mem w) !! sk = Some s ∧ sk_user_data s = Some c ∧
          trace w' = trace w ++ [EvConnDestruct c] ∧
          conn_cache w' = conn_cache w ∧ conn_hooks w' = conn_hooks w).
Proof.
  rewrite tfw_connection_close_unfold.
  destruct (socks (mem w) !! sk) as [s|] eqn:Hs; [|done].
  destruct (verdict_is_block _) eqn:Hv.
  { apply verdict_is_block_true in Hv. intros [= <- <-]. by left. }
  apply verdict_is_block_false in Hv.
  destruct (sk_user_data s) as [c|] eqn:Hud; [|done].
  destruct (proto_type_at (mem w) c) as [ty|]; [|done].
  destruct (hooks_lookup w (TFW_CONN_TYPE2IDX ty)) as [h|]; [|done].
  simpl.
  destruct (objs (conn_destruct h c (mem w)) !! c) as [[P1|C1]|]; try done.
  destruct (peer C1) as [p|]; [|done].
  destruct (peers (conn_destruct h c (mem w)) !! p) as [P|]; [|done].
  destruct (socks (conn_destruct h c (mem w)) !! sk) as [s1|]; [|done].
  intros [= <- <-]. right. split; [done|]. split; [done|].
  by exists s, c.
Qed.

(** X12. What [tfw_connection_put_skb_to_msg] leaves behind, whatever the
    protocol callback does.  When it returns 0, the connection has a
    message in flight and the segment just put is the last one of that
    message; when it returns anything else, that is [-ENOMEM] after one
    call of [conn_msg_alloc], and the connection has no message. *)
Theorem tfw_connection_put_skb_to_msg_results (conn skb : N)
    (w w' : World) (r : Z) :
  tfw_connection_put_skb_to_msg conn skb w = Ret r w' →
  (r = 0 ∧
   ∃ C' m X, objs (mem w') !! conn = Some (ObjConn C') ∧ msg C' = Some m ∧
             msgs (mem w') !! m = Some X ∧ last (skb_list X) = Some skb) ∨
  (r = - ENOMEM ∧
   trace w' = trace w ++ [EvConnMsgAlloc conn] ∧
   ∃ C', objs (mem w') !! conn = Some (ObjConn C') ∧ msg C' = None).
Proof.
  rewrite tfw_connection_put_skb_to_msg_unfold.
  destruct (objs (mem w) !! conn) as [[P0|C]|] eqn:HC; try done.
  destruct (msg C) as [m|] eqn:Hm.
  - destruct (msgs (mem w) !! m) as [X|]; [|done].
    intros [= <- <-]. left. split; [done|].
    exists C, m, {| skb_list := skb_list X ++ [skb] |}. simpl.
    rewrite lookup_insert_eq. do 3 (split; [done|]). apply last_snoc.
  - destruct (hooks_lookup w _) as [h|]; [|done].
    destruct (conn_msg_alloc h conn (mem w)) as [r0 m1].
    destruct (objs m1 !! conn) as [[P1|C1]|]; try done.
    destruct r0 as [m|]; simpl.
    + destruct (msgs m1 !! m) as [X|]; [|done].
      intros [= <- <-]. left. split; [done|].
      exists (set_msg (Some m) C1), m, {| skb_list := skb_list X ++ [skb] |}.
      simpl. rewrite !lookup_insert_eq.
      do 3 (split; [done|]). apply last_snoc.
    + intros [= <- <-]. right. split; [done|]. simpl.
      split; [done|]. eexists. rewrite lookup_insert_eq. done.
Qed.

(** X13. [tfw_connection_postpone_skb] never allocates.  On a connection
    with a message in flight it puts the segment at the tail of that
    message, calls no one, touches nothing else and returns 0; on a
    connection without a message it goes through the null message
    pointer. *)
Theorem tfw_connection_postpone_skb_contract (conn skb : N) (w : World)
    (C : TfwConnection) :
  objs (mem w) !! conn = Some (ObjConn C) →
  match msg C with
  | None => tfw_connection_postpone_skb conn skb w = Oops
  | Some m =>
    ∀ X, msgs (mem w) !! m = Some X →
    ∃ w', tfw_connection_postpone_skb conn skb w = Ret 0 w' ∧
          msgs (mem w') !! m = Some {| skb_list := skb_list X ++ [skb] |} ∧
          (∀ m', m' ≠ m → msgs (mem w') !! m' = msgs (mem w) !! m') ∧
          objs (mem w') = objs (mem w) ∧ socks (mem w') = socks (mem w) ∧
          peers (mem w') = peers (mem w) ∧
          trace w' = trace w ∧ conn_cache w' = conn_cache w
  end.
Proof.
  intros HC. rewrite tfw_connection_postpone_skb_unfold, HC.
  destruct (msg C) as [m|]; [|reflexivity].
  intros X HX. rewrite HX. eexists. split; [reflexivity|]. simpl.
  rewrite lookup_insert_eq, app_nil_r.
  split; [done|].
  split; [intros m' Hne; by rewrite lookup_insert_ne|done].
Qed.

(** One [put_skb_to_msg] upcall on a connection with a message in flight. *)
Lemma put_skb_to_msg_in_flight (conn skb : N) (w : World)
    (C : TfwConnection) (m : N) (X : TfwMsg) :
  objs (mem w) !! conn = Some (ObjConn C) → msg C = Some m →
  msgs (mem w) !! m = Some X →
  tfw_connection_put_skb_to_msg conn skb w =
  Ret 0 (next_world w
           (set_msgs <[m := {| skb_list := skb_list X ++ [skb] |}]> (mem w))
           []).
Proof.
  intros HC Hm HX.
  by rewrite tfw_connection_put_skb_to_msg_unfold, HC, Hm, HX.
Qed.

(** X14. Segments accumulate in arrival order.  A run of
    [put_skb_to_msg] upcalls on a connection with a message in flight
    returns 0 and leaves that message with the segments it had followed by
    those of the run, in the order of the calls; no protocol callback is
    made, and no other message and no connection record changes. *)
Theorem put_skbs_in_order (conn : N) (skbs : list N) (w : World)
    (C : TfwConnection) (m : N) (X : TfwMsg) :
  objs (mem w) !! conn = Some (ObjConn C) → msg C = Some m →
  msgs (mem w) !! m = Some X →
  ∃ w', put_skbs conn skbs w = Ret 0 w' ∧
        msgs (mem w') !! m = Some {| skb_list := skb_list X ++ skbs |} ∧
        (∀ m', m' ≠ m → msgs (mem w') !! m' = msgs (mem w) !! m') ∧
        objs (mem w') = objs (mem w) ∧
        trace w' = trace w.
Proof.
  revert w X. induction skbs as [|skb rest IH]; intros w X HC Hm HX.
  - exists w. split; [reflexivity|]. rewrite app_nil_r.
    destruct X. done.
  - pose proof (put_skb_to_msg_in_flight conn skb w C m X HC Hm HX) as Hput.
    set (w1 := next_world w
           (set_msgs <[m := {| skb_list := skb_list X ++ [skb] |}]> (mem w))
           []) in *.
    destruct (IH w1 {| skb_list := skb_list X ++ [skb] |})
      as (w' & Hrun & Hmsg & Hothers & Hobjs & Htr).
    { exact HC. }
    { exact Hm. }
    { unfold w1. simpl. apply lookup_insert_eq. }
    exists w'. split.
    + cbn [put_skbs put_skb_to_msg ssocket_hooks].
      unfold mbind, M_bind. rewrite Hput. exact Hrun.
    + simpl in Hmsg. rewrite <- app_assoc in Hmsg. split; [exact Hmsg|].
      split.
      * intros m' Hne. rewrite (Hothers m' Hne). unfold w1. simpl.
        by rewrite lookup_insert_ne.
      * split; [exact Hobjs|]. rewrite Htr. unfold w1. simpl.
        apply app_nil_r.
Qed.

(** X15. A message built across two upcalls.  On a connection without a
    message, [put_skb_to_msg] for a first segment followed by
    [postpone_skb] for a second one allocates once, and the message that
    [conn_msg_alloc] returned ends with the two segments in that order. *)
Theorem put_then_postpone (conn skb1 skb2 : N) (w : World)
    (C C1 : TfwConnection) (h : TfwConnHooks) (m : N) (m1 : Mem)
    (X : TfwMsg) :
  objs (mem w) !! conn = Some (ObjConn C) → msg C = None →
  hooks_lookup w (TFW_CONN_TYPE2IDX (TFW_CONN_TYPE C)) = Some h →
  conn_msg_alloc h conn (mem w) = (Some m, m1) →
  objs m1 !! conn = Some (ObjConn C1) →
  msgs m1 !! m = Some X →
  ∃ w1 w2,
    tfw_connection_put_skb_to_msg conn skb1 w = Ret 0 w1 ∧
    tfw_connection_postpone_skb conn skb2 w1 = Ret 0 w2 ∧
    msgs (mem w2) !! m = Some {| skb_list := skb_list X ++ [skb1; skb2] |} ∧
    (∃ C2, objs (mem w2) !! conn = Some (ObjConn C2) ∧ msg C2 = Some m) ∧
    trace w2 = trace w ++ [EvConnMsgAlloc conn].
Proof.
  intros HC Hm Hh Halloc HC1 HX.
  eexists _, _. split.
  { rewrite tfw_connection_put_skb_to_msg_unfold, HC, Hm, Hh, Halloc, HC1, HX.
    reflexivity. }
  rewrite tfw_connection_postpone_skb_unfold. simpl.
  rewrite !lookup_insert_eq. simpl. rewrite lookup_insert_eq.
  split; [reflexivity|]. simpl. rewrite !lookup_insert_eq.
  rewrite <- app_assoc, app_nil_r. split; [done|].
  split; [by eexists|done].
Qed.

(** X16. Registering a null hook set is accepted and occupies nothing: at
    a free slot inside the table the call returns and the module state is
    what it was, so that the slot can still be registered. *)
Theorem tfw_connection_hooks_register_null (type : Z) (w : World) :
  let hid := to_unsigned (TFW_CONN_TYPE2IDX type) in
  hid < to_unsigned TFW_CONN_MAX_PROTOS →
  conn_hooks w !! Z.to_nat hid = Some None →
  tfw_connection_hooks_register None type w = Ret tt w.
Proof.
  intros hid Hlt Hfree. unfold tfw_connection_hooks_register. fold hid.
  assert (Hleb : (to_unsigned TFW_CONN_MAX_PROTOS <=? hid) = false)
    by (apply Z.leb_gt; lia).
  rewrite Hleb, Hfree. rewrite list_insert_id by done.
  by destruct w.
Qed.

(** X17. The hook table is write-once per slot.  After a hook set has been
    registered for a type, the lookup made for a connection of that
    protocol finds it, the lookups at the other indices find what they
    found before, and any further registration that maps to the same slot
    trips the assertion. *)
Theorem tfw_connection_hooks_register_once (h : TfwConnHooks) (type : Z)
    (w w' : World) :
  tfw_connection_hooks_register (Some h) type w = Ret tt w' →
  let hid := to_unsigned (TFW_CONN_TYPE2IDX type) in
  conn_hooks w' !! Z.to_nat hid = Some (Some h) ∧
  (0 <= TFW_CONN_TYPE2IDX type < 2 ^ 32 →
   hooks_lookup w' (TFW_CONN_TYPE2IDX type) = Some h) ∧
  (∀ i, Z.to_nat i ≠ Z.to_nat hid → hooks_lookup w' i = hooks_lookup w i) ∧
  (∀ hooks2 type2,
     to_unsigned (TFW_CONN_TYPE2IDX type2) = hid →
     tfw_connection_hooks_register hooks2 type2 w' = Bug).
Proof.
  intros Hreg hid. unfold tfw_connection_hooks_register in *.
  fold hid in Hreg.
  destruct (to_unsigned TFW_CONN_MAX_PROTOS <=? hid) eqn:Hleb; [done|].
  destruct (conn_hooks w !! Z.to_nat hid) as [[h0|]|] eqn:Hslot; try done.
  injection Hreg as <-. simpl.
  assert (Hin : (Z.to_nat hid < length (conn_hooks w))%nat)
    by (by apply lookup_lt_Some in Hslot).
  assert (Hnew : <[Z.to_nat hid := Some h]> (conn_hooks w) !! Z.to_nat hid
                 = Some (Some h)) by (by apply list_lookup_insert_eq).
  split; [exact Hnew|]. split; [|split].
  - intros Hidx. unfold hooks_lookup. simpl.
    assert (Hneg : (TFW_CONN_TYPE2IDX type <? 0) = false)
      by (apply Z.ltb_ge; lia).
    rewrite Hneg.
    assert (Hsame : TFW_CONN_TYPE2IDX type = hid).
    { unfold hid, to_unsigned. symmetry. apply Z.mod_small. lia. }
    rewrite Hsame, Hnew. done.
  - intros i Hne. unfold hooks_lookup. simpl.
    by rewrite list_lookup_insert_ne.
  - intros hooks2 type2 Hsame. rewrite Hsame, Hleb, Hnew. done.
Qed.

(** [tfw_connection_send] and [tfw_connection_recv] in closed form. *)
Lemma tfw_connection_send_unfold (conn msg : option N) (w : World) :
  tfw_connection_send conn msg w =
  match conn with
  | None => Oops
  | Some c =>
    match objs (mem w) !! c with
    | Some (ObjConn C) => Ret tt (next_world w (ss_send (sock C) msg (mem w)) [])
    | _ => Oops
    end
  end.
Proof.
  unfold tfw_connection_send, load_conn, modify_mem, mbind, M_bind.
  destruct conn as [c|]; [|reflexivity].
  destruct (objs (mem w) !! c) as [[P|C]|]; try reflexivity.
  unfold next_world. simpl. by rewrite app_nil_r.
Qed.

Lemma tfw_connection_recv_unfold (sk : N) (data : list Byte.byte) (w : World) :
  tfw_connection_recv sk data w =
  match socks (mem w) !! sk with
  | None => Oops
  | Some s =>
    Ret (tfw_gfsm_dispatch (sk_user_data s) data (mem w)).1
        (next_world w (tfw_gfsm_dispatch (sk_user_data s) data (mem w)).2 [])
  end.
Proof.
  unfold tfw_connection_recv, load_sock, run_mem, mbind, M_bind.
  destruct (socks (mem w) !! sk) as [s|]; [|reflexivity].
  destruct (tfw_gfsm_dispatch (sk_user_data s) data (mem w)) as [r m2].
  unfold next_world. simpl. by rewrite app_nil_r.
Qed.

(** X18. The hook table is read-only after registration: no downcall and
    no upcall of the connection layer changes it when it returns. *)
Theorem conn_hooks_read_only (w w' : World) :
  (∀ sk type d r, tfw_connection_new sk type d w = Ret r w' →
                  conn_hooks w' = conn_hooks w) ∧
  (∀ sk r, tfw_connection_new_upcall sk w = Ret r w' →
           conn_hooks w' = conn_hooks w) ∧
  (∀ sk r, tfw_connection_close sk w = Ret r w' →
           conn_hooks w' = conn_hooks w) ∧
  (∀ conn skb r, tfw_connection_put_skb_to_msg conn skb w = Ret r w' →
                 conn_hooks w' = conn_hooks w) ∧
  (∀ conn skb r, tfw_connection_postpone_skb conn skb w = Ret r w' →
                 conn_hooks w' = conn_hooks w) ∧
  (∀ conn msg r, tfw_connection_send conn msg w = Ret r w' →
                 conn_hooks w' = conn_hooks w) ∧
  (∀ sk data r, tfw_connection_recv sk data w = Ret r w' →
                conn_hooks w' = conn_hooks w).
Proof.
  assert (Hnew : ∀ sk type d r w1,
            tfw_connection_new sk type d w = Ret r w1 →
            conn_hooks w1 = conn_hooks w).
  { intros sk type d [c|] w1 H.
    - destruct (tfw_connection_new_success _ _ _ _ _ _ H)
        as (s & ty & rest & h & _ & _ & _ & _ & _ & ->). done.
    - by destruct (tfw_connection_new_null _ _ _ _ _ H) as (_ & _ & ?). }
  split; [intros sk type d r; apply Hnew|].
  split; [|split; [|split; [|split; [|split]]]].
  - intros sk r. rewrite tfw_connection_new_upcall_unfold.
    destruct (verdict_is_block _); [by intros [= _ <-]|].
    destruct (tfw_connection_new sk Conn_Clnt (Some tfw_client_put) w)
      as [[c|] w1| |] eqn:H; try done.
    + apply Hnew in H.
      destruct (tfw_create_client c TfwAddr_zero (mem w1)) as [[cl|] m2];
        by intros [= _ <-].
    + apply Hnew in H. by intros [= _ <-].
  - intros sk r H.
    destruct (tfw_connection_close_returns _ _ _ _ H)
      as [[_ ->]|[_ Hdone]]; [done|].
    destruct Hdone as (s & c & h & C1 & p & P & s1 & _ & _ & _ & Hrest).
    simpl in Hrest. by destruct Hrest as (_ & _ & _ & _ & ->).
  - intros conn skb r. rewrite tfw_connection_put_skb_to_msg_unfold.
    destruct (objs (mem w) !! conn) as [[P0|C]|]; try done.
    destruct (msg C) as [m|].
    + destruct (msgs (mem w) !! m); [|done]. by intros [= _ <-].
    + destruct (hooks_lookup w _) as [h|]; [|done].
      destruct (conn_msg_alloc h conn (mem w)) as [r0 m1].
      destruct (objs m1 !! conn) as [[P1|C1]|]; try done.
      destruct r0 as [m|]; simpl.
      * destruct (msgs m1 !! m); [|done]. by intros [= _ <-].
      * by intros [= _ <-].
  - intros conn skb r. rewrite tfw_connection_postpone_skb_unfold.
    destruct (objs (mem w) !! conn) as [[P0|C]|]; try done.
    destruct (msg C) as [m|]; [|done].
    destruct (msgs (mem w) !! m); [|done]. by intros [= _ <-].
  - intros conn msg r. rewrite tfw_connection_send_unfold.
    destruct conn as [c|]; [|done].
    destruct (objs (mem w) !! c) as [[P|C]|]; try done. by intros [= _ <-].
  - intros sk data r. rewrite tfw_connection_recv_unfold.
    destruct (socks (mem w) !! sk); [|done]. by intros [= _ <-].
Qed.

(** X19. What reaches the transmit path.  After a segment has been put on
    a connection with a message in flight, [tfw_connection_send] for that
    connection and message hands [ss_send] the socket of the connection
    and a message whose segments are those it had followed by the new
    one; it builds no list of its own, logs no call, and memory is what
    [ss_send] returns.  Through a null pointer or an address that holds no
    connection it does not return. *)
Theorem tfw_connection_send_after_put (c sk m skb : N) (w : World)
    (C : TfwConnection) (X : TfwMsg) :
  objs (mem w) !! c = Some (ObjConn C) → sock C = Some sk →
  msg C = Some m → msgs (mem w) !! m = Some X →
  (∃ w1 w2,
     tfw_connection_put_skb_to_msg c skb w = Ret 0 w1 ∧
     msgs (mem w1) !! m = Some {| skb_list := skb_list X ++ [skb] |} ∧
     tfw_connection_send (Some c) (Some m) w1 = Ret tt w2 ∧
     mem w2 = ss_send (Some sk) (Some m) (mem w1) ∧
     trace w2 = trace w ∧ conn_cache w2 = conn_cache w) ∧
  (∀ msg' a, tfw_connection_send None msg' w = Oops ∧
             (objs (mem w) !! a = None →
              tfw_connection_send (Some a) msg' w = Oops)).
Proof.
  intros HC Hsock Hm HX. split.
  - eexists _, _. split; [by apply (put_skb_to_msg_in_flight c skb w C m X)|].
    simpl. rewrite lookup_insert_eq. split; [done|].
    rewrite tfw_connection_send_unfold. simpl. rewrite HC, Hsock.
    split; [reflexivity|]. simpl. by rewrite !app_nil_r.
  - intros msg' a. rewrite !tfw_connection_send_unfold.
    split; [done|]. by intros ->.
Qed.

(** X20. Receiving on a closed endpoint.  [tfw_connection_recv] does not
    look at the user-data slot: after a close that returned 0, a receive
    upcall on the same socket still calls the dispatcher, with a null
    connection, and returns what the dispatcher returns. *)
Theorem tfw_connection_recv_after_close (sk : N) (data : list Byte.byte)
    (w w' : World) :
  tfw_connection_close sk w = Ret 0 w' →
  ∃ w'',
    tfw_connection_recv sk data w' =
      Ret (tfw_gfsm_dispatch None data (mem w')).1 w'' ∧
    mem w'' = (tfw_gfsm_dispatch None data (mem w')).2 ∧
    trace w'' = trace w'.
Proof.
  intros Hclose.
  destruct (tfw_connection_close_returns _ _ _ _ Hclose)
    as [[H _]|[_ Hdone]]; [by cbv [EPERM Z.opp] in H|].
  destruct Hdone as (s & c & h & C1 & p & P & s1 & _ & _ & _ & Hrest).
  simpl in Hrest. destruct Hrest as (_ & _ & _ & _ & ->).
  rewrite tfw_connection_recv_unfold. simpl. rewrite lookup_insert_eq.
  simpl. eexists. split; [reflexivity|]. simpl.
  split; [done|apply app_nil_r].
Qed.

Lemma destroy_count_app (c : N) (l1 l2 : list ModEvent) :
  destroy_count c (l1 ++ l2) = (destroy_count c l1 + destroy_count c l2)%nat.
Proof.
  induction l1 as [|e l1 IH]; simpl; [done|].
  destruct e as [name| | |[c'|]]; simpl; rewrite ?IH; try done.
  lia.
Qed.

(** X21. The slab cache over the life of the module.  Take a load of the
    module, followed by its unload if and only if the load returned 0.
    The load returns 0 exactly when the cache was created and the hooks
    were registered, and [-ENOMEM] without calling the socket layer when
    the cache was not created; a cache that was created is destroyed
    exactly once over the whole run, and no other cache is. *)
Theorem tfw_connection_cache_lifecycle (cache : option N) (r : Z)
    (st : ModState) :
  let res := (tfw_connection_init cache r st).1 in
  let st1 := (tfw_connection_init cache r st).2 in
  let final := if res =? 0 then tfw_connection_exit st1 else st1 in
  (res = 0 ↔ is_Some cache ∧ r = 0) ∧
  (cache = None →
   res = - ENOMEM ∧
   mod_trace st1 = mod_trace st ++ [EvKmemCacheCreate "tfw_conn_cache"]) ∧
  (∀ c, destroy_count c (mod_trace final) =
        (destroy_count c (mod_trace st)
         + if decide (cache = Some c) then 1 else 0)%nat).
Proof.
  unfold tfw_connection_init, tfw_connection_exit.
  destruct cache as [a|]; simpl.
  - destruct (r =? 0) eqn:Hr; simpl.
    + apply Z.eqb_eq in Hr. subst r. simpl. split; [by split|].
      split; [done|]. intros c. rewrite !destroy_count_app.
      cbn [destroy_count].
      destruct (decide (Some a = Some c)) as [[= ->]|Hne].
      * rewrite N.eqb_refl. lia.
      * assert (Hf : (a =? c)%N = false) by (apply N.eqb_neq; congruence).
        rewrite Hf. lia.
    + rewrite Hr. apply Z.eqb_neq in Hr. split.
      { split; [done|]. by intros [_ ?]. }
      split; [done|]. intros c. cbn [mod_trace].
      rewrite !destroy_count_app.
      cbn [destroy_count].
      destruct (decide (Some a = Some c)) as [[= ->]|Hne].
      * rewrite N.eqb_refl. lia.
      * assert (Hf : (a =? c)%N = false) by (apply N.eqb_neq; congruence).
        rewrite Hf. lia.
  - split.
    { split; [done|]. intros [[? ?] _]. done. }
    split; [done|]. intros c. rewrite destroy_count_app.
    cbn [destroy_count]. destruct (decide (None = Some c)); [done|lia].
Qed.

End MoreProperties.

(** ** The statements on the concrete configuration *)

Section Witnesses.
#[local] Existing Instance Demo.externs.

Lemma demo_http_hooks_keep_binding : hooks_keep_binding Demo.http_hooks.
Proof.
  intros c m. simpl. split; [apply same_binding_refl|].
  split; [apply same_binding_refl|]. apply same_binding_set_msgs.
Qed.

Lemma demo_starved_hooks_keep_binding : hooks_keep_binding Demo.starved_hooks.
Proof.
  intros c m. simpl. repeat split; done.
Qed.

Lemma demo_hooks_table_keep_binding (i : nat) (h : TfwConnHooks) :
  Demo.hooks_table !! i = Some (Some h) → hooks_keep_binding h.
Proof.
  unfold Demo.hooks_table. simpl.
  destruct i as [|[|i]]; simpl.
  - intros [= <-]. apply demo_http_hooks_keep_binding.
  - intros [= <-]. apply demo_starved_hooks_keep_binding.
  - do 15 (destruct i as [|i]; [done|]). done.
Qed.

Lemma demo_create_client_same_binding (c : N) (a : TfwAddr) (m : Mem) :
  same_binding m (tfw_create_client c a m).2.
Proof.
  change (same_binding m (Demo.create_client c a m).2).
  unfold Demo.create_client.
  destruct (peers m !! 500%N); [apply same_binding_refl|].
  destruct (objs m !! c) as [[P|C]|] eqn:HC; try apply same_binding_refl.
  simpl. split; [done|]. intros x. simpl.
  destruct (decide (c = x)) as [<-|Hne].
  - by rewrite lookup_insert_eq, HC.
  - by rewrite lookup_insert_ne.
Qed.

Lemma demo_world0_ok : world_ok Demo.world0.
Proof.
  split; [|apply demo_hooks_table_keep_binding].
  intros c C. unfold Demo.world0, Demo.mem0. simpl.
  rewrite lookup_insert. case_decide; [done|].
  rewrite lookup_insert. case_decide; [done|].
  by rewrite lookup_empty.
Qed.

Lemma demo_socket1_unbound : unbound (mem Demo.world0) 1.
Proof.
  intros s c C Hs Hud. vm_compute in Hs. injection Hs as <-. done.
Qed.

Lemma demo_conn_init_leaves_alone (sk c : N) :
  conn_init_leaves_alone Demo.world0 sk c.
Proof.
  intros j h m. simpl. unfold Demo.hooks_table. simpl.
  destruct j as [|[|j]]; simpl.
  - by intros [= <-].
  - by intros [= <-].
  - do 15 (destruct j as [|j]; [done|]). done.
Qed.

(** C8 on the table of the configuration: slot 2 is free, slot 1 is not. *)
Lemma tfw_connection_hooks_register_contract_witness :
  ∃ w', tfw_connection_hooks_register (Some Demo.starved_hooks) 2 Demo.world0
          = Ret tt w' ∧
        conn_hooks w' !! 2%nat = Some (Some Demo.starved_hooks) ∧
        tfw_connection_hooks_register (Some Demo.starved_hooks) 1 Demo.world0
          = Bug.
Proof.
  destruct (tfw_connection_hooks_register_contract
              (Some Demo.starved_hooks) 2 Demo.world0)
    as (_ & _ & Hfree); [vm_compute; split; congruence|reflexivity|].
  destruct Hfree as [_ Hfree]; [reflexivity|].
  destruct Hfree as (w' & Hreg & Hslot & _); [reflexivity|].
  exists w'. split; [exact Hreg|]. split; [exact Hslot|].
  destruct (tfw_connection_hooks_register_contract
              (Some Demo.starved_hooks) 1 Demo.world0)
    as (_ & Hbusy & _); [vm_compute; split; congruence|reflexivity|].
  apply Hbusy. exists Demo.starved_hooks. reflexivity.
Defined.

(** C5 on socket 13, whose establishment the classifier vetoes. *)
Lemma tfw_connection_new_upcall_blocked_witness :
  tfw_connection_new_upcall 13 Demo.world0 = Ret (- EPERM) Demo.world0.
Proof.
  apply (tfw_connection_new_upcall_blocked 13 Demo.world0). reflexivity.
Defined.

(** C7 with an exhausted cache, on the fresh socket 1. *)
Lemma tfw_connection_new_alloc_failure_witness :
  ∃ w', tfw_connection_new 1 Demo.Conn_Clnt (Some tfw_client_put)
          Demo.world_oom = Ret None w' ∧
        mem w' = mem Demo.world_oom ∧
        sk_user_data <$> socks (mem w') !! 1%N = Some None ∧
        trace w' = [].
Proof.
  destruct (tfw_connection_new_alloc_failure 1 Demo.Conn_Clnt
              (Some tfw_client_put) Demo.world_oom
              (Demo.plain_sock None (Some "sock_def_destruct"%string)
                               Demo.remote)
              Demo.Conn_Clnt)
    as (w' & Hnew & Hmem & _ & Hslot & Htr & _).
  - vm_compute. congruence.
  - reflexivity.
  - reflexivity.
  - intros a. vm_compute. congruence.
  - exists w'. split; [exact Hnew|]. split; [exact Hmem|].
    split; [apply Hslot; reflexivity|exact Htr].
Defined.

(** C10 on socket 1, which comes with the destructor [sock_def_destruct]:
    without a destructor argument the socket keeps it. *)
Lemma tfw_connection_new_destructor_witness :
  ∃ s' C',
    socks (mem (Demo.run (tfw_connection_new 1 Demo.Conn_Clnt None)
                         Demo.world0)) !! 1%N = Some s' ∧
    objs (mem (Demo.run (tfw_connection_new 1 Demo.Conn_Clnt None)
                        Demo.world0)) !! 100%N = Some (ObjConn C') ∧
    sk_destruct s' = Some "sock_def_destruct"%string ∧
    conn_sk_destruct C' = None.
Proof.
  destruct (tfw_connection_new_destructor 1 Demo.Conn_Clnt None Demo.world0
              (Demo.run (tfw_connection_new 1 Demo.Conn_Clnt None) Demo.world0)
              100%N)
    as (s & Hs & _ & Hfinal); [reflexivity|].
  vm_compute in Hs. injection Hs as <-.
  destruct Hfinal as (s' & C' & Hs' & HC' & Hd & Hc);
    [apply demo_conn_init_leaves_alone|].
  by exists s', C'.
Defined.

(** C4 (amended) on socket 3, pre-bound to a tag without direction bits:
    the connection gets the client bit and the pre-bound protocol index. *)
Lemma tfw_connection_new_type_witness :
  ∃ C', objs (mem (Demo.run (tfw_connection_new 3 Demo.Conn_Clnt None)
                            Demo.world0)) !! 100%N = Some (ObjConn C') ∧
        TFW_CONN_TYPE C' = Z.lor Demo.Conn_Clnt 1 ∧
        direction_bits (TFW_CONN_TYPE C') = direction_bits Demo.Conn_Clnt.
Proof.
  destruct (tfw_connection_new_type 3 Demo.Conn_Clnt None Demo.world0
              (Demo.run (tfw_connection_new 3 Demo.Conn_Clnt None) Demo.world0)
              100%N)
    as (s & ty & Hs & _ & Hfinal & Hty); [reflexivity|].
  vm_compute in Hs. injection Hs as <-. simpl in Hty.
  destruct Hty as (pt & Hpt & Hlor & _ & Hdir).
  vm_compute in Hpt. injection Hpt as <-.
  destruct Hfinal as (C' & HC' & HT); [apply demo_conn_init_leaves_alone|].
  exists C'. split; [exact HC'|]. rewrite HT. split; [exact Hlor|].
  apply Hdir. reflexivity.
Defined.

(** C4 as stated fails on socket 2, pre-bound to a tag that carries the
    server bit: the connection created for the client direction ends up
    with both direction bits. *)
Lemma tfw_connection_new_type_counterexample :
  ∃ w' C,
    tfw_connection_new 2 Demo.Conn_Clnt None Demo.world0 = Ret (Some 100%N) w' ∧
    objs (mem w') !! 100%N = Some (ObjConn C) ∧
    direction_bits (TFW_CONN_TYPE C) = Z.lor Demo.Conn_Clnt Demo.Conn_Srv ∧
    direction_bits (TFW_CONN_TYPE C) ≠ direction_bits Demo.Conn_Clnt.
Proof.
  eexists _, _. split; [vm_compute; reflexivity|].
  split; [vm_compute; reflexivity|].
  split; [reflexivity|]. vm_compute. congruence.
Qed.

(** C1 on the live world: the close of socket 14 is vetoed, the close of
    socket 1 goes through. *)
Lemma tfw_connection_close_gate_witness :
  tfw_connection_close 14 Demo.world_live = Ret (- EPERM) Demo.world_live ∧
  ∃ w', tfw_connection_close 1 Demo.world_live = Ret 0 w' ∧
        trace w' = trace Demo.world_live ++ [EvConnDestruct 100] ∧
        conn_list <$> peers (mem w') !! 500%N = Some [] ∧
        objs (mem w') !! 100%N = None ∧
        sk_user_data <$> socks (mem w') !! 1%N = Some None.
Proof.
  split.
  - edestruct (tfw_connection_close_gate 14 Demo.world_live) as [Hveto _];
      [reflexivity|].
    apply Hveto. reflexivity.
  - edestruct (tfw_connection_close_gate 1 Demo.world_live) as [_ Hallow];
      [reflexivity|].
    edestruct Hallow as (w' & Hclose & Htr & Hpeer & _ & Hobj & Hud & _);
      [vm_compute; congruence|reflexivity..|].
    exists w'. split; [exact Hclose|]. split; [exact Htr|].
    split; [exact Hpeer|]. split; [exact Hobj|exact Hud].
Defined.

(** C2 (amended) on the fresh sockets 1 and 14 of the initial world. *)
Lemma tfw_connection_close_empty_slot_witness :
  tfw_connection_close 1 Demo.world0 = Oops ∧
  tfw_connection_close 14 Demo.world0 = Ret (- EPERM) Demo.world0.
Proof.
  split.
  - edestruct (tfw_connection_close_empty_slot 1 Demo.world0) as [Heq _];
      [reflexivity..|].
    exact Heq.
  - edestruct (tfw_connection_close_empty_slot 14 Demo.world0) as [Heq _];
      [reflexivity..|].
    exact Heq.
Defined.

(** C2 as stated fails on socket 1 of the initial world: its user-data
    slot is empty, the classifier allows the close, and the call does not
    return. *)
Lemma tfw_connection_close_empty_slot_counterexample :
  sk_user_data <$> socks (mem Demo.world0) !! 1%N = Some None ∧
  tfw_connection_close 1 Demo.world0 = Oops ∧
  tfw_connection_close 1 Demo.world0 ≠ Ret 0 Demo.world0.
Proof.
  split; [reflexivity|]. split; [reflexivity|].
  vm_compute. congruence.
Qed.

(** C3 on the live world: connection 100 gets its first message, the
    protocol of connection 101 cannot allocate one, and a second segment
    on connection 100 follows the first. *)
Lemma tfw_connection_put_skb_to_msg_contract_witness :
  (∃ w', tfw_connection_put_skb_to_msg 100 7 Demo.world_live = Ret 0 w' ∧
         msgs (mem w') !! 1000%N = Some {| skb_list := [7%N] |}) ∧
  (∃ w', tfw_connection_put_skb_to_msg 101 7 Demo.world_live
           = Ret (- ENOMEM) w' ∧
         ∃ C', objs (mem w') !! 101%N = Some (ObjConn C') ∧ msg C' = None) ∧
  (∃ w', tfw_connection_put_skb_to_msg 100 8 Demo.world_msg = Ret 0 w' ∧
         msgs (mem w') !! 1000%N = Some {| skb_list := [7%N; 8%N] |}).
Proof.
  split; [|split].
  - edestruct (tfw_connection_put_skb_to_msg_contract 100 7 Demo.world_live)
      as [_ Hnew]; [reflexivity|].
    specialize (Hnew Demo.http_hooks (Some 1000%N)).
    edestruct Hnew as (w' & Hput & _ & _ & Hm & _); [reflexivity..|].
    exists w'. split; [exact Hput|exact Hm].
  - edestruct (tfw_connection_put_skb_to_msg_contract 101 7 Demo.world_live)
      as [_ Hnew]; [reflexivity|].
    specialize (Hnew Demo.starved_hooks None).
    edestruct Hnew as (w' & Hput & _ & HC & _); [reflexivity..|].
    exists w'. split; [exact Hput|exact HC].
  - edestruct (tfw_connection_put_skb_to_msg_contract 100 8 Demo.world_msg)
      as [Hold _]; [reflexivity|].
    edestruct (Hold 1000%N) as [(w' & Hput & Hm & _) _]; [reflexivity..|].
    exists w'. split; [exact Hput|exact Hm].
Defined.

(** C6 at a failing input.  Socket 1 of the initial world has the remote
    address 10.0.0.1, port 8080; its passive open succeeds, and the client
    registry was handed the zero-filled address. *)
Theorem tfw_connection_new_upcall_zero_address :
  ∃ w', tfw_connection_new_upcall 1 Demo.world0 = Ret 0 w' ∧
        trace w' = [EvConnInit 100; EvCreateClient 100 TfwAddr_zero] ∧
        sk_daddr <$> socks (mem Demo.world0) !! 1%N = Some Demo.remote ∧
        Demo.remote ≠ TfwAddr_zero.
Proof.
  eexists. split; [vm_compute; reflexivity|].
  split; [reflexivity|]. split; [reflexivity|]. discriminate.
Qed.

(** C9 on the configuration: the passive open of socket 1 binds a
    connection to it, and the close of the socket empties the slot and
    releases that connection. *)
Lemma connection_binding_lifecycle_witness :
  (∃ c, bound (mem Demo.world_open) 1 c) ∧
  (∃ s', socks (mem (Demo.run (tfw_connection_close 1) Demo.world_open)) !! 1%N
           = Some s' ∧
         sk_user_data s' = None ∧
         objs (mem (Demo.run (tfw_connection_close 1) Demo.world_open)) !! 100%N
           = None).
Proof.
  destruct (connection_binding_lifecycle Demo.world0 demo_world0_ok
              demo_create_client_same_binding)
    as (_ & _ & Hopen & _).
  destruct (Hopen 1%N 0 Demo.world_open demo_socket1_unbound)
    as [Hok Hbound]; [vm_compute; reflexivity|].
  split; [by apply Hbound|].
  destruct (connection_binding_lifecycle Demo.world_open Hok
              demo_create_client_same_binding)
    as (_ & _ & _ & _ & _ & _ & Hclose).
  destruct (Hclose 1%N 0 (Demo.run (tfw_connection_close 1) Demo.world_open))
    as (_ & _ & Hdone); [vm_compute; reflexivity|].
  destruct (Hdone eq_refl) as (s & c & s' & Hs & Hud & Hs' & Hud' & Hc & _).
  vm_compute in Hs. injection Hs as <-.
  injection Hud as <-.
  by exists s'.
Defined.

End Witnesses.

(** ** The further properties on the concrete configuration *)

Section MoreWitnesses.
#[local] Existing Instance Demo.externs.
#[local] Existing Instance DemoIO.sock_layer.

(** X1 on a tag that holds a protocol index only. *)
Lemma tfw_connection_new_requires_direction_witness :
  tfw_connection_new 1 1 None Demo.world0 = Bug.
Proof.
  apply (tfw_connection_new_requires_direction 1 1 None Demo.world0).
  reflexivity.
Defined.

(** X2 on socket 3, pre-bound to protocol 1. *)
Lemma tfw_connection_new_wellformed_witness :
  ∃ ty h, direction_bits ty ≠ 0 ∧
          conn_hooks Demo.world0 !! Z.to_nat (TFW_CONN_TYPE2IDX ty)
            = Some (Some h) ∧
          trace (Demo.run (tfw_connection_new 3 Demo.Conn_Clnt None)
                          Demo.world0) = [EvConnInit 100].
Proof.
  destruct (tfw_connection_new_wellformed 3 Demo.Conn_Clnt None Demo.world0
              (Demo.run (tfw_connection_new 3 Demo.Conn_Clnt None) Demo.world0)
              100%N)
    as (s & ty & h & _ & _ & Hdir & _ & _ & Hslot & _ & Htr & _);
    [reflexivity|].
  exists ty, h. split; [exact Hdir|]. split; [exact Hslot|exact Htr].
Defined.



(** X5 on the cache of the configuration, whose first object is 100. *)
Lemma tfw_connection_alloc_zeroed_witness :
  ∃ w' C, tfw_connection_alloc 257 Demo.world0 = Ret (Some 100%N) w' ∧
          objs (mem w') !! 100%N = Some (ObjConn C) ∧
          TFW_CONN_TYPE C = 257 ∧ msg C = None ∧ sock C = None.
Proof.
  edestruct (tfw_connection_alloc_zeroed 257 Demo.world0)
    as (w' & C & Halloc & HC & Hty & Hmsg & _ & _ & Hsock & _);
    [reflexivity|].
  by exists w', C.
Defined.

(** X6 on the cache of the configuration. *)
Lemma tfw_connection_alloc_free_witness :
  ∃ w1 w2, tfw_connection_alloc 257 Demo.world0 = Ret (Some 100%N) w1 ∧
           tfw_connection_free 100 w1 = Ret tt w2 ∧
           mem w2 = mem Demo.world0.
Proof.
  edestruct (tfw_connection_alloc_free 257 Demo.world0)
    as (w1 & w2 & Halloc & Hfree & Hmem & _);
    [reflexivity..|].
  by exists w1, w2.
Defined.

(** X7 with the exhausted cache, on socket 1. *)
Lemma tfw_connection_new_upcall_alloc_failure_witness :
  ∃ w', tfw_connection_new_upcall 1 Demo.world_oom = Ret (- ENOMEM) w' ∧
        mem w' = mem Demo.world_oom ∧ trace w' = [EvSsClose 1].
Proof.
  edestruct (tfw_connection_new_upcall_alloc_failure 1 Demo.world_oom)
    as (w' & Hup & Hmem & Htr & _).
  - vm_compute. congruence.
  - vm_compute. congruence.
  - reflexivity.
  - reflexivity.
  - intros a. vm_compute. congruence.
  - by exists w'.
Defined.

(** X8 on socket 1 of the initial world. *)
Lemma tfw_connection_new_upcall_protocol_witness :
  ∃ c, trace Demo.world_open
       = trace Demo.world0 ++ [EvConnInit c; EvCreateClient c TfwAddr_zero].
Proof.
  destruct (tfw_connection_new_upcall_protocol 1 Demo.world0 Demo.world_open 0)
    as [(H & _)|(_ & [(H & _)|[(c & H & _)|(c & _ & Htr)]])];
    [vm_compute; reflexivity|by vm_compute in H..|].
  by exists c.
Defined.

Lemma demo_world_open_hooks : conn_hooks Demo.world_open = Demo.hooks_table.
Proof. vm_compute. reflexivity. Qed.

(** X9 on socket 3 once client 500 is taken: the registry fails, and
    connection 101 stays bound to the socket. *)
Lemma tfw_connection_new_upcall_einval_keeps_binding_witness :
  ∃ c, bound (mem (Demo.run (tfw_connection_new_upcall 3) Demo.world_open))
             3 c.
Proof.
  destruct (tfw_connection_new_upcall_einval_keeps_binding 3 Demo.world_open
              (Demo.run (tfw_connection_new_upcall 3) Demo.world_open))
    as (c & Hb & _).
  - intros i h Hi. rewrite demo_world_open_hooks in Hi.
    by apply (demo_hooks_table_keep_binding i).
  - apply demo_create_client_same_binding.
  - vm_compute. reflexivity.
  - by exists c.
Defined.


(** X11 on socket 1 of the open world. *)
Lemma tfw_connection_close_results_witness :
  ∃ c, trace (Demo.run (tfw_connection_close 1) Demo.world_open)
       = trace Demo.world_open ++ [EvConnDestruct c].
Proof.
  destruct (tfw_connection_close_results 1 Demo.world_open
              (Demo.run (tfw_connection_close 1) Demo.world_open) 0)
    as [(H & _)|(_ & _ & s & c & _ & _ & Htr & _)];
    [vm_compute; reflexivity|by vm_compute in H|].
  by exists c.
Defined.

(** X12 on the first segment of connection 100. *)
Lemma tfw_connection_put_skb_to_msg_results_witness :
  ∃ C' m X, objs (mem Demo.world_msg) !! 100%N = Some (ObjConn C') ∧
            msg C' = Some m ∧ msgs (mem Demo.world_msg) !! m = Some X ∧
            last (skb_list X) = Some 7%N.
Proof.
  destruct (tfw_connection_put_skb_to_msg_results 100 7 Demo.world_live
              Demo.world_msg 0)
    as [(_ & H)|(H & _)];
    [vm_compute; reflexivity| |by vm_compute in H].
  exact H.
Defined.

(** X13 on connection 100, with and without a message in flight. *)
Lemma tfw_connection_postpone_skb_contract_witness :
  (∃ w', tfw_connection_postpone_skb 100 8 Demo.world_msg = Ret 0 w' ∧
         msgs (mem w') !! 1000%N = Some {| skb_list := [7%N; 8%N] |}) ∧
  tfw_connection_postpone_skb 100 8 Demo.world_live = Oops.
Proof.
  split.
  - assert (H := tfw_connection_postpone_skb_contract 100 8 Demo.world_msg
                   (DemoIO.conn100 (Some 1000%N))
                   ltac:(vm_compute; reflexivity)).
    cbn [msg DemoIO.conn100] in H.
    destruct (H {| skb_list := [7%N] |}) as (w' & Hp & Hm & _);
      [vm_compute; reflexivity|].
    exists w'. split; [exact Hp|exact Hm].
  - exact (tfw_connection_postpone_skb_contract 100 8 Demo.world_live
             (DemoIO.conn100 None) ltac:(vm_compute; reflexivity)).
Defined.

(** X14 on connection 100: three more segments after the first. *)
Lemma put_skbs_in_order_witness :
  ∃ w', put_skbs 100 [8%N; 9%N; 10%N] Demo.world_msg = Ret 0 w' ∧
        msgs (mem w') !! 1000%N
          = Some {| skb_list := [7%N; 8%N; 9%N; 10%N] |}.
Proof.
  destruct (put_skbs_in_order 100 [8%N; 9%N; 10%N] Demo.world_msg
              (DemoIO.conn100 (Some 1000%N)) 1000%N {| skb_list := [7%N] |})
    as (w' & Hrun & Hm & _);
    [vm_compute; reflexivity..|].
  exists w'. split; [exact Hrun|exact Hm].
Defined.

(** X15 on connection 100 of the live world. *)
Lemma put_then_postpone_witness :
  ∃ w1 w2,
    tfw_connection_put_skb_to_msg 100 7 Demo.world_live = Ret 0 w1 ∧
    tfw_connection_postpone_skb 100 8 w1 = Ret 0 w2 ∧
    msgs (mem w2) !! 1000%N = Some {| skb_list := [7%N; 8%N] |} ∧
    trace w2 = trace Demo.world_live ++ [EvConnMsgAlloc 100].
Proof.
  destruct (put_then_postpone 100 7 8 Demo.world_live
              (DemoIO.conn100 None) (DemoIO.conn100 None) Demo.http_hooks
              1000%N
              (conn_msg_alloc Demo.http_hooks 100%N (mem Demo.world_live)).2
              {| skb_list := [] |})
    as (w1 & w2 & Hput & Hpost & Hm & _ & Htr);
    [vm_compute; reflexivity..|].
  exists w1, w2.
  split; [exact Hput|]. split; [exact Hpost|]. split; [exact Hm|exact Htr].
Defined.

(** X16 at the free slot 2. *)
Lemma tfw_connection_hooks_register_null_witness :
  tfw_connection_hooks_register None 2 Demo.world0 = Ret tt Demo.world0.
Proof.
  apply (tfw_connection_hooks_register_null 2 Demo.world0); reflexivity.
Defined.

(** X17 at slot 2. *)
Lemma tfw_connection_hooks_register_once_witness :
  hooks_lookup
    (Demo.run (tfw_connection_hooks_register (Some Demo.starved_hooks) 2)
              Demo.world0) 2 = Some Demo.starved_hooks ∧
  tfw_connection_hooks_register (Some Demo.http_hooks) 2
    (Demo.run (tfw_connection_hooks_register (Some Demo.starved_hooks) 2)
              Demo.world0) = Bug.
Proof.
  destruct (tfw_connection_hooks_register_once Demo.starved_hooks 2
              Demo.world0
              (Demo.run (tfw_connection_hooks_register
                           (Some Demo.starved_hooks) 2) Demo.world0))
    as (_ & Hlook & _ & Hagain); [reflexivity|].
  split.
  - apply Hlook. vm_compute. split; congruence.
  - apply Hagain. reflexivity.
Defined.

(** X19 on connection 100 and its message 1000. *)
Lemma tfw_connection_send_after_put_witness :
  ∃ w1 w2,
    tfw_connection_put_skb_to_msg 100 8 Demo.world_msg = Ret 0 w1 ∧
    msgs (mem w1) !! 1000%N = Some {| skb_list := [7%N; 8%N] |} ∧
    tfw_connection_send (Some 100%N) (Some 1000%N) w1 = Ret tt w2 ∧
    mem w2 = ss_send (Some 1%N) (Some 1000%N) (mem w1).
Proof.
  destruct (tfw_connection_send_after_put 100 1 1000 8 Demo.world_msg
              (DemoIO.conn100 (Some 1000%N)) {| skb_list := [7%N] |})
    as [(w1 & w2 & Hput & Hm & Hsend & Hmem & _) _];
    [vm_compute; reflexivity..|].
  exists w1, w2.
  split; [exact Hput|]. split; [exact Hm|]. split; [exact Hsend|exact Hmem].
Defined.

(** X20 on socket 1 of the open world, once closed. *)
Lemma tfw_connection_recv_after_close_witness :
  ∃ w'', tfw_connection_recv 1 [Byte.x01]
           (Demo.run (tfw_connection_close 1) Demo.world_open)
         = Ret (-1) w''.
Proof.
  destruct (tfw_connection_recv_after_close 1 [Byte.x01] Demo.world_open
              (Demo.run (tfw_connection_close 1) Demo.world_open))
    as (w'' & Hrecv & _); [vm_compute; reflexivity|].
  exists w''. exact Hrecv.
Defined.

End MoreWitnesses.
